(** * Matching and recommendation engine of the placement system

    A shallow embedding of [app/services/matching_service.py] (with the
    parts of [app/services/mongo_service.py] it calls, and the routes of
    [app/api/routes] that call it), and the properties of its scoring
    kernel and of the recommendation life cycle.

    Numbers.  Python [float]s are read as exact rationals ([Q]): sums,
    products, quotients and comparisons are the exact ones, so a statement
    proved here speaks about the arithmetic the code writes down, not about
    binary64 rounding.  Python [int]s are [Z].

    Strings.  A [str] is a [string] whose characters are code points below
    256; [lower], [strip] and [split] follow Python's behaviour on them. *)

From Stdlib Require Import QArith Qround Qabs Lqa Ascii String Sorted Permutation.
From stdpp Require Import base option list strings gmap fin_maps fin_sets.

Local Open Scope Z_scope.

(* ================================================================== *)
(** ** Python values and built-ins used by the service *)
(* ================================================================== *)

Module Py.

(** Exceptions the modelled code can raise. *)
Inductive exn : Type :=
| ValueError (msg : string).

(** [str.lower] on a code point below 256: the ASCII capitals and the
    Latin-1 capitals (codes 192 to 222, except the multiplication sign 215) move by 32. *)
Definition lower_char (c : ascii) : ascii :=
  let n := nat_of_ascii c in
  if ((65 <=? n)%nat && (n <=? 90)%nat)
     || ((192 <=? n)%nat && (n <=? 222)%nat && negb (n =? 215)%nat)
  then ascii_of_nat (n + 32) else c.

Fixpoint lower (s : string) : string :=
  match s with
  | EmptyString => EmptyString
  | String c r => String (lower_char c) (lower r)
  end.

(** Characters [str.split()] and [str.strip()] treat as white space. *)
Definition is_space (c : ascii) : bool :=
  let n := nat_of_ascii c in
  ((9 <=? n)%nat && (n <=? 13)%nat) || ((28 <=? n)%nat && (n <=? 32)%nat)
  || (n =? 133)%nat || (n =? 160)%nat.

Fixpoint lstrip (s : string) : string :=
  match s with
  | String c r => if is_space c then lstrip r else s
  | EmptyString => EmptyString
  end.

Fixpoint rstrip (s : string) : string :=
  match s with
  | EmptyString => EmptyString
  | String c r =>
      match rstrip r with
      | EmptyString => if is_space c then EmptyString else String c EmptyString
      | r' => String c r'
      end
  end.

Definition strip (s : string) : string := rstrip (lstrip s).

(** [s.split()]: maximal runs of non-space characters, in order.  [cur]
    is the run being read, reversed. *)
Fixpoint split_aux (s : string) (cur : list ascii) : list string :=
  let flush (k : list string) :=
    match cur with
    | [] => k
    | _ => string_of_list_ascii (rev cur) :: k
    end in
  match s with
  | EmptyString => flush []
  | String c r =>
      if is_space c then flush (split_aux r []) else split_aux r (c :: cur)
  end.

Definition split (s : string) : list string := split_aux s [].

(** [sep.join(parts)]. *)
Fixpoint join (sep : string) (parts : list string) : string :=
  match parts with
  | [] => EmptyString
  | [p] => p
  | p :: rest => p ++ sep ++ join sep rest
  end.

(** Decimal digits of a natural number, as [str(n)] prints them. *)
Fixpoint digits_fuel (fuel : nat) (n : N) (acc : string) : string :=
  match fuel with
  | O => acc
  | S f =>
      let d := ascii_of_N (48 + N.modulo n 10) in
      let q := N.div n 10 in
      if N.eqb q 0 then String d acc else digits_fuel f q (String d acc)
  end.

Definition str_N (n : N) : string := digits_fuel (S (N.to_nat (N.log2 n))) n EmptyString.

(** [str(z)] / [f"{z}"] for an [int]. *)
Definition str_int (z : Z) : string :=
  if z <? 0 then String "-" (str_N (Z.to_N (- z))) else str_N (Z.to_N z).

(** [int(x)] for a float: truncation towards zero. *)
Definition int (x : Q) : Z := Z.quot (Qnum x) (Z.pos (Qden x)).

(** [round(x, ndigits)]: the multiple of [10^-ndigits] nearest to [x],
    a tie going to the even multiple. *)
Definition round_half_even (y : Q) : Z :=
  let f := Qfloor y in
  let d := (y - inject_Z f)%Q in
  match (d ?= 1 # 2)%Q with
  | Lt => f
  | Gt => f + 1
  | Eq => if Z.even f then f else f + 1
  end.

Definition round (x : Q) (ndigits : nat) : Q :=
  let p := Z.pow 10 (Z.of_nat ndigits) in
  Qred (inject_Z (round_half_even (x * inject_Z p)) / inject_Z p).

(** [l[:n]] for an [int] [n]: a negative [n] counts from the end. *)
Definition slice_to {A} (l : list A) (n : Z) : list A :=
  if n <? 0 then take (List.length l - Z.to_nat (- n)) l else take (Z.to_nat n) l.

End Py.

(* ================================================================== *)
(** ** Documents, rows and the embedding cache *)
(* ================================================================== *)

(** [parsed_data] of a parsed resume.  A field is [None] when the key is
    missing from the dictionary, which is what [dict.get(key, default)]
    tests. *)
Record education_entry := { edu_degree : option string; edu_field : option string }.
Record experience_entry := { exp_role : option string }.

Record parsed_resume := {
  pr_skills : option (list string);
  pr_experience_years : option Q;
  pr_education : option (list education_entry);
  pr_experience : option (list experience_entry) }.

(** [parsed_data] of a parsed job description. *)
Record parsed_jd := {
  pj_title : option string;
  pj_required_skills : option (list string);
  pj_preferred_skills : option (list string);
  pj_min_experience : option Z;
  pj_max_experience : option Z }.

(** A document of [parsed_resumes] / [parsed_job_descriptions]: only its
    ["parsed_data"] key is read, and it may be missing. *)
Record resume_doc := { rd_parsed_data : option parsed_resume }.
Record jd_doc := { jd_parsed_data : option parsed_jd }.

(** A row of the [jobs] table, with the columns the service selects. *)
Record job_row := {
  job_id : Z;
  title : string;
  company_id : Z;
  min_experience : Z;
  max_experience : option Z;
  status : string }.

(** The data the engine reads and never writes: the latest parsed resume
    per student, the parsed description per job, and the [jobs] table in
    the order the database enumerates it. *)
Record collaborators := {
  parsed_resumes : gmap Z resume_doc;
  parsed_job_descriptions : gmap Z jd_doc;
  jobs : list job_row }.

(** A document of [embedding_cache], keyed by [(entity_type, entity_id)].
    Its [created_at] stamp is written and never read; it is left out. *)
Record cache_doc := { cd_embedding : list Q; cd_text_hash : string }.

Abbreviation cache := (gmap (string * Z) cache_doc).

(** One dictionary of the list [generate_recommendations] returns. *)
Record recommendation := {
  rec_job_id : Z;
  rec_job_title : string;
  rec_match_score : Q;
  rec_skill_match_pct : Q;
  rec_experience_match : bool;
  rec_embedding_similarity : Q }.

(* ================================================================== *)
(** ** Cache effects and exceptions *)
(* ================================================================== *)

(** A computation reads and writes the embedding cache and either returns
    or raises; what it wrote before raising stays written. *)
Definition M (A : Type) : Type := cache -> (Py.exn + A) * cache.

Definition ret {A} (a : A) : M A := fun c => (inr a, c).

Definition bind {A B} (m : M A) (k : A -> M B) : M B :=
  fun c =>
    match m c with
    | (inr a, c') => k a c'
    | (inl e, c') => (inl e, c')
    end.

Definition lift {A} (r : Py.exn + A) : M A := fun c => (r, c).

Notation "x <- m ;; k" := (bind m (fun x => k))
  (at level 100, m at next level, right associativity).

(** A [for] loop threading an accumulator. *)
Fixpoint for_each {A B} (body : B -> A -> M B) (l : list A) (acc : B) : M B :=
  match l with
  | [] => ret acc
  | x :: l' => acc' <- body acc x ;; for_each body l' acc'
  end.

(** [EmbeddingCacheService.get_embedding]. *)
Definition get_embedding (entity_type : string) (entity_id : Z)
  : M (option (list Q)) :=
  fun c => (inr (cd_embedding <$> c !! (entity_type, entity_id)), c).

(** [EmbeddingCacheService.store_embedding]: an upsert on the key. *)
Definition store_embedding (entity_type : string) (entity_id : Z)
    (embedding : list Q) (text_hash : string) : M unit :=
  fun c =>
    (inr tt,
     <[(entity_type, entity_id) :=
         {| cd_embedding := embedding; cd_text_hash := text_hash |}]> c).

(* ================================================================== *)
(** ** Library functions taken as parameters *)
(* ================================================================== *)

(** The service calls three library functions whose values are not rational
    computations: the square root of numpy ([np.sqrt], also inside
    [np.linalg.norm]), [hashlib.sha256(w.encode()).digest()] (a list of
    bytes) and [hashlib.md5(t.encode()).hexdigest()]; and it prints a
    float inside an f-string.  They are parameters of the development;
    nothing is assumed about them. *)
Section Engine.

Variable np_sqrt : Q -> Q.
Variable sha256_digest : string -> list Z.
Variable md5_hexdigest : string -> string.
Variable str_float : Q -> string.

(* ================================================================== *)
(** ** Similarity computation *)
(* ================================================================== *)

(** [np.dot(a, b)] on two vectors of one length. *)
Fixpoint np_dot (a b : list Q) : Q :=
  match a, b with
  | x :: a', y :: b' => (x * y + np_dot a' b')%Q
  | _, _ => 0%Q
  end.

(** [np.linalg.norm(a)]. *)
Definition np_linalg_norm (a : list Q) : Q := np_sqrt (np_dot a a).

(** [cosine_similarity(vec1, vec2)]. *)
Definition cosine_similarity (vec1 vec2 : list Q) : Py.exn + Q :=
  if negb (length vec1 =? length vec2)%nat then
    inl (Py.ValueError "Vectors must have same dimension")
  else
    let dot_product := np_dot vec1 vec2 in
    let magnitude_a := np_linalg_norm vec1 in
    let magnitude_b := np_linalg_norm vec2 in
    if Qeq_bool magnitude_a 0 || Qeq_bool magnitude_b 0 then inr 0%Q
    else inr (dot_product / (magnitude_a * magnitude_b))%Q.

(** [compute_skill_match_percentage(student_skills, required_skills)]. *)
Definition compute_skill_match_percentage
    (student_skills required_skills : list string) : Q :=
  match required_skills with
  | [] => 100%Q
  | _ =>
      let student_skills_lower : gset string :=
        list_to_set (Py.lower <$> student_skills) in
      let required_skills_lower : gset string :=
        list_to_set (Py.lower <$> required_skills) in
      let matches := student_skills_lower ∩ required_skills_lower in
      (inject_Z (Z.of_nat (size matches))
       / inject_Z (Z.of_nat (size required_skills_lower)) * 100)%Q
  end.

(** [check_experience_match(student_experience, min_required, max_required)]. *)
Definition check_experience_match
    (student_experience : Q) (min_required : Z) (max_required : option Z) : bool :=
  if Qlt_le_dec student_experience (inject_Z min_required) then false
  else
    match max_required with
    | Some m =>
        if Qlt_le_dec (inject_Z (m + 2)) student_experience then false else true
    | None => true
    end.

(** The weighted sum of the scoring loop (lines 429-433):
    50% similarity, 40% skill match, 10% experience. *)
Definition combined_score
    (match_score skill_match_pct : Q) (experience_match : bool) : Q :=
  (match_score * (1 # 2)
   + (skill_match_pct / 100) * (4 # 10)
   + (if experience_match then 1 else 1 # 2) * (1 # 10))%Q.

(* ================================================================== *)
(** ** Embedding generation *)
(* ================================================================== *)

Definition embedding_dim : nat := 256.

(** [_compute_text_hash]. *)
Definition _compute_text_hash (text : string) : string := md5_hexdigest text.

(** [_text_to_features(parsed_data, "student")]. *)
Definition _text_to_features_student (parsed_data : parsed_resume) : string :=
  let skills := default [] (pr_skills parsed_data) in
  let features := ["skills: " ++ Py.join ", " skills]%string in
  let exp_years := default 0%Q (pr_experience_years parsed_data) in
  let features :=
    (features ++ [("experience: " ++ str_float exp_years ++ " years")%string])%list in
  let features :=
    fold_left
      (fun features edu =>
         let degree := default ""%string (edu_degree edu) in
         let field := default ""%string (edu_field edu) in
         features ++ [("education: " ++ degree ++ " in " ++ field)%string])%list
      (default [] (pr_education parsed_data)) features in
  let features :=
    fold_left
      (fun features exp =>
         let role := default ""%string (exp_role exp) in
         if String.eqb role "" then features
         else features ++ [("role: " ++ role)%string])%list
      (default [] (pr_experience parsed_data)) features in
  Py.join " | " features.

(** [_text_to_features(parsed_data, "job")]. *)
Definition _text_to_features_job (parsed_data : parsed_jd) : string :=
  let title := default ""%string (pj_title parsed_data) in
  let features := [("title: " ++ title)%string] in
  let req_skills := default [] (pj_required_skills parsed_data) in
  let features :=
    (features ++ [("required skills: " ++ Py.join ", " req_skills)%string])%list in
  let pref_skills := default [] (pj_preferred_skills parsed_data) in
  let features :=
    match pref_skills with
    | [] => features
    | _ => (features ++ [("preferred skills: " ++ Py.join ", " pref_skills)%string])%list
    end in
  let min_exp := default 0 (pj_min_experience parsed_data) in
  let max_exp := pj_max_experience parsed_data in
  let features :=
    match max_exp with
    | Some m =>
        if m =? 0 then
          (features ++ [("experience: " ++ Py.str_int min_exp ++ "+ years")%string])%list
        else
          (features ++ [("experience: " ++ Py.str_int min_exp ++ "-"
                           ++ Py.str_int m ++ " years")%string])%list
    | None =>
        (features ++ [("experience: " ++ Py.str_int min_exp ++ "+ years")%string])%list
    end in
  Py.join " | " features.

(** [word_hash[j % len(word_hash)]]; a SHA-256 digest has 32 bytes, so the
    index is in range. *)
Definition hash_byte (word_hash : list Z) (j : nat) : Z :=
  nth (j mod length word_hash) word_hash 0.

(** [sum(x**2 for x in embedding)]. *)
Definition sum_squares (embedding : list Q) : Q :=
  fold_left (fun acc x => acc + x ^ 2)%Q embedding 0%Q.

(** [_generate_simple_embedding(text)]. *)
Definition _generate_simple_embedding (text : string) : list Q :=
  let text := Py.strip (Py.lower text) in
  let words := Py.split text in
  let embedding := replicate embedding_dim 0%Q in
  let embedding :=
    fold_left
      (fun embedding '(i, word) =>
         let word_hash := sha256_digest word in
         fold_left
           (fun embedding j =>
              let idx := ((i * 32 + j) mod embedding_dim)%nat in
              alter (fun x => x + (inject_Z (hash_byte word_hash j - 128) / 128))%Q
                    idx embedding)
           (seq 0 (Nat.min 32 embedding_dim)) embedding)
      (imap (fun i word => (i, word)) words) embedding in
  let magnitude := np_sqrt (sum_squares embedding) in
  if Qlt_le_dec 0 magnitude then (fun x => x / magnitude)%Q <$> embedding
  else embedding.

(** Truth value of an optional list: [None] and [[]] are false. *)
Definition truthy {A} (o : option (list A)) : bool :=
  match o with
  | Some (_ :: _) => true
  | _ => false
  end.

(** [EmbeddingService.get_student_embedding]. *)
Definition get_student_embedding (w : collaborators) (student_id : Z)
    (force_regenerate : bool) : M (option (list Q)) :=
  cached <- (if force_regenerate then ret None
             else get_embedding "student" student_id) ;;
  if truthy cached then ret cached
  else
    match parsed_resumes w !! student_id with
    | Some {| rd_parsed_data := Some parsed_data |} =>
        let feature_text := _text_to_features_student parsed_data in
        let text_hash := _compute_text_hash feature_text in
        let embedding := _generate_simple_embedding feature_text in
        _ <- store_embedding "student" student_id embedding text_hash ;;
        ret (Some embedding)
    | _ => ret None
    end.

(** [EmbeddingService.get_job_embedding]. *)
Definition get_job_embedding (w : collaborators) (job_id : Z)
    (force_regenerate : bool) : M (option (list Q)) :=
  cached <- (if force_regenerate then ret None
             else get_embedding "job" job_id) ;;
  if truthy cached then ret cached
  else
    match parsed_job_descriptions w !! job_id with
    | Some {| jd_parsed_data := Some parsed_data |} =>
        let feature_text := _text_to_features_job parsed_data in
        let text_hash := _compute_text_hash feature_text in
        let embedding := _generate_simple_embedding feature_text in
        _ <- store_embedding "job" job_id embedding text_hash ;;
        ret (Some embedding)
    | _ => ret None
    end.

(* ================================================================== *)
(** ** Recommendation service: generation *)
(* ================================================================== *)

(** What the loop of [generate_recommendations] computes for one job
    before the threshold test: the local variables [match_score],
    [skill_match_pct], [experience_match] and [combined_score]. *)
Record scored := {
  sc_job : job_row;
  sc_match_score : Q;
  sc_skill_match_pct : Q;
  sc_experience_match : bool;
  sc_combined_score : Q }.

(** The dictionary appended for a scored job (lines 436-443). *)
Definition entry (sc : scored) : recommendation :=
  {| rec_job_id := job_id (sc_job sc);
     rec_job_title := title (sc_job sc);
     rec_match_score := Py.round (sc_combined_score sc) 4;
     rec_skill_match_pct := Py.round (sc_skill_match_pct sc) 2;
     rec_experience_match := sc_experience_match sc;
     rec_embedding_similarity := Py.round (sc_match_score sc) 4 |}.

(** [SELECT ... FROM jobs WHERE status = 'open']. *)
Definition open_jobs (w : collaborators) : list job_row :=
  filter (fun job => status job = "open"%string) (jobs w).

(** Lines 397-433 of the loop body, once [job_embedding] is known; [None]
    is the [continue]. *)
Definition score_with_embedding (w : collaborators) (student_embedding : list Q)
    (student_skills : list string) (student_experience : Q) (job : job_row)
    (job_embedding : option (list Q)) : Py.exn + option scored :=
  match job_embedding with
  | Some ((_ :: _) as job_embedding) =>
      match cosine_similarity student_embedding job_embedding with
      | inl e => inl e
      | inr similarity =>
          let match_score := ((similarity + 1) / 2)%Q in
          let '(skill_match_pct, experience_match) :=
            match parsed_job_descriptions w !! job_id job with
            | Some {| jd_parsed_data := Some job_data |} =>
                let required_skills := default [] (pj_required_skills job_data) in
                (compute_skill_match_percentage student_skills required_skills,
                 check_experience_match student_experience
                   (min_experience job) (max_experience job))
            | _ => (50%Q, true)
            end in
          inr (Some {| sc_job := job;
                       sc_match_score := match_score;
                       sc_skill_match_pct := skill_match_pct;
                       sc_experience_match := experience_match;
                       sc_combined_score :=
                         combined_score match_score skill_match_pct
                           experience_match |})
      end
  | _ => inr None
  end.

(** Lines 393-433 of the loop body. *)
Definition score_job (w : collaborators) (student_embedding : list Q)
    (student_skills : list string) (student_experience : Q) (job : job_row)
  : M (option scored) :=
  job_embedding <- get_job_embedding w (job_id job) false ;;
  lift (score_with_embedding w student_embedding student_skills
          student_experience job job_embedding).

(** Lines 435-443: the threshold test and the append. *)
Definition keep (min_score : Q) (recommendations : list recommendation)
    (sc : scored) : list recommendation :=
  if Qle_bool min_score (sc_combined_score sc)
  then recommendations ++ [entry sc]
  else recommendations.

(** The body of the [for job in open_jobs] loop. *)
Definition loop_body (w : collaborators) (student_embedding : list Q)
    (student_skills : list string) (student_experience : Q) (min_score : Q)
    (recommendations : list recommendation) (job : job_row)
  : M (list recommendation) :=
  o <- score_job w student_embedding student_skills student_experience job ;;
  ret (match o with
       | Some sc => keep min_score recommendations sc
       | None => recommendations
       end).

(** [l.sort(key=key, reverse=True)].  Python's sort is stable, also with
    [reverse=True]: of two elements with equal keys the one that came first
    stays first. *)
Fixpoint insert_reverse {A} (key : A -> Q) (x : A) (l : list A) : list A :=
  match l with
  | [] => [x]
  | y :: l' =>
      if Qlt_le_dec (key x) (key y) then y :: insert_reverse key x l'
      else x :: l
  end.

Definition sort_reverse {A} (key : A -> Q) (l : list A) : list A :=
  foldr (insert_reverse key) [] l.

(** [RecommendationService.generate_recommendations]. *)
Definition generate_recommendations (w : collaborators) (student_id : Z)
    (top_n : Z) (min_score : Q) : M (list recommendation) :=
  student_embedding <- get_student_embedding w student_id false ;;
  match student_embedding with
  | Some ((_ :: _) as student_embedding) =>
      match parsed_resumes w !! student_id with
      | None => ret []
      | Some student_doc =>
          let student_data := rd_parsed_data student_doc in
          let student_skills := default [] (student_data ≫= pr_skills) in
          let student_experience :=
            default 0%Q (student_data ≫= pr_experience_years) in
          recommendations <-
            for_each
              (loop_body w student_embedding student_skills student_experience
                 min_score)
              (open_jobs w) [] ;;
          ret (Py.slice_to (sort_reverse rec_match_score recommendations) top_n)
      end
  | _ => ret []
  end.

(* ================================================================== *)
(** ** The scoring loop read off a fixed cache *)
(* ================================================================== *)

(** What [get_student_embedding] and [get_job_embedding] return when run on
    cache [c]. *)
Definition resolve_student (w : collaborators) (c : cache) (student_id : Z)
  : Py.exn + option (list Q) :=
  fst (get_student_embedding w student_id false c).

Definition resolve_job (w : collaborators) (c : cache) (job_id : Z)
  : Py.exn + option (list Q) :=
  fst (get_job_embedding w job_id false c).

Definition option_to_list {A} (o : option A) : list A :=
  match o with Some a => [a] | None => [] end.

(** The jobs the loop scores, in the order it meets them, each embedding
    being the one cache [c] resolves to; the first exception ends the run. *)
Fixpoint score_all (w : collaborators) (c : cache) (student_embedding : list Q)
    (student_skills : list string) (student_experience : Q)
    (l : list job_row) : Py.exn + list scored :=
  match l with
  | [] => inr []
  | job :: rest =>
      match resolve_job w c (job_id job) with
      | inl e => inl e
      | inr job_embedding =>
          match score_with_embedding w student_embedding student_skills
                  student_experience job job_embedding with
          | inl e => inl e
          | inr o =>
              match score_all w c student_embedding student_skills
                      student_experience rest with
              | inl e => inl e
              | inr scs => inr (option_to_list o ++ scs)
              end
          end
      end
  end.

(** The scored open jobs of a candidate: none when the candidate has no
    embedding or no parsed resume. *)
Definition scored_open_jobs (w : collaborators) (c : cache) (student_id : Z)
  : Py.exn + list scored :=
  match resolve_student w c student_id with
  | inl e => inl e
  | inr (Some ((_ :: _) as student_embedding)) =>
      match parsed_resumes w !! student_id with
      | None => inr []
      | Some student_doc =>
          let student_data := rd_parsed_data student_doc in
          score_all w c student_embedding
            (default [] (student_data ≫= pr_skills))
            (default 0%Q (student_data ≫= pr_experience_years))
            (open_jobs w)
      end
  | inr _ => inr []
  end.

(** The vector a parsed document projects to, if there is one. *)
Definition projected_student (w : collaborators) (student_id : Z) : option (list Q) :=
  match parsed_resumes w !! student_id with
  | Some {| rd_parsed_data := Some parsed_data |} =>
      Some (_generate_simple_embedding (_text_to_features_student parsed_data))
  | _ => None
  end.

Definition projected_job (w : collaborators) (job_id : Z) : option (list Q) :=
  match parsed_job_descriptions w !! job_id with
  | Some {| jd_parsed_data := Some parsed_data |} =>
      Some (_generate_simple_embedding (_text_to_features_job parsed_data))
  | _ => None
  end.

Definition cached (c : cache) (entity_type : string) (entity_id : Z)
  : option (list Q) :=
  cd_embedding <$> c !! (entity_type, entity_id).

(** Two caches every lookup of the service resolves alike. *)
Definition coherent (w : collaborators) (c c' : cache) : Prop :=
  forall id, resolve_student w c' id = resolve_student w c id
             /\ resolve_job w c' id = resolve_job w c id.

End Engine.


(* ================================================================== *)
(** ** Recommendation service: the [ai_recommendations] table *)
(* ================================================================== *)

(** A row of [ai_recommendations]; the unique key [(student_id, job_id)]
    is the key of the map.  The surrogate [recommendation_id] is assigned by
    the database and never written by the service; it is left out.  Time
    stamps are microseconds since the epoch. *)
Record recommendation_row := {
  row_match_score : Q;
  row_skill_match_pct : Q;
  row_experience_match : bool;
  row_recommendation_reason : string;
  row_is_viewed : bool;
  row_is_applied : bool;
  row_created_at : Z;
  row_expires_at : Z }.

Abbreviation ai_recommendations := (gmap (Z * Z) recommendation_row).

(** The values a fresh row takes in the columns the [INSERT] does not
    list.  The table declaration is not part of the sources, so they are a
    parameter. *)
Record column_defaults := {
  default_is_viewed : bool;
  default_is_applied : bool;
  default_created_at : Z }.

(** [timedelta(days=d)]. *)
Definition timedelta_days (d : Z) : Z := d * 86400 * 1000000.

(** [RecommendationService._generate_reason]. *)
Definition _generate_reason (rec : recommendation) : string :=
  let score_pct := Py.int (rec_match_score rec * 100) in
  let reasons := [("Overall match: " ++ Py.str_int score_pct ++ "%")%string] in
  let skill_pct := Py.int (rec_skill_match_pct rec) in
  let reasons :=
    if 80 <=? skill_pct then
      reasons ++ [("Excellent skill match (" ++ Py.str_int skill_pct ++ "%)")%string]
    else if 50 <=? skill_pct then
      reasons ++ [("Good skill match (" ++ Py.str_int skill_pct ++ "%)")%string]
    else
      reasons ++ [("Partial skill match (" ++ Py.str_int skill_pct ++ "%)")%string] in
  let reasons :=
    if rec_experience_match rec then reasons ++ ["Experience requirements met"%string]
    else reasons ++ ["Experience slightly outside range"%string] in
  (Py.join ". " reasons ++ ".")%string.

(** The [INSERT ... ON CONFLICT (student_id, job_id) DO UPDATE SET ...]
    statement.  [current_timestamp] is the database's [CURRENT_TIMESTAMP]. *)
Definition upsert_recommendation (dflt : column_defaults) (current_timestamp : Z)
    (student_id : Z) (rec : recommendation) (reason : string) (expires_at : Z)
    (t : ai_recommendations) : ai_recommendations :=
  let key := (student_id, rec_job_id rec) in
  match t !! key with
  | Some old =>
      <[key := {| row_match_score := rec_match_score rec;
                  row_skill_match_pct := rec_skill_match_pct rec;
                  row_experience_match := rec_experience_match rec;
                  row_recommendation_reason := reason;
                  row_is_viewed := row_is_viewed old;
                  row_is_applied := row_is_applied old;
                  row_created_at := current_timestamp;
                  row_expires_at := expires_at |}]> t
  | None =>
      <[key := {| row_match_score := rec_match_score rec;
                  row_skill_match_pct := rec_skill_match_pct rec;
                  row_experience_match := rec_experience_match rec;
                  row_recommendation_reason := reason;
                  row_is_viewed := default_is_viewed dflt;
                  row_is_applied := default_is_applied dflt;
                  row_created_at := default_created_at dflt;
                  row_expires_at := expires_at |}]> t
  end.

(** [RecommendationService.store_recommendations]; [utcnow] is the value of
    [datetime.utcnow()]. *)
Definition store_recommendations (dflt : column_defaults)
    (utcnow current_timestamp : Z) (student_id : Z)
    (recommendations : list recommendation) (t : ai_recommendations)
  : ai_recommendations * Z :=
  match recommendations with
  | [] => (t, 0)
  | _ =>
      let expires_at := utcnow + timedelta_days 7 in
      fold_left
        (fun '(t, stored_count) rec =>
           let reason := _generate_reason rec in
           (upsert_recommendation dflt current_timestamp student_id rec reason
              expires_at t,
            stored_count + 1))
        recommendations (t, 0)
  end.

(** [UPDATE ai_recommendations SET is_viewed = TRUE WHERE student_id = ...
    AND job_id = ...]: the new table and [result.rowcount]. *)
Definition set_viewed (r : recommendation_row) : recommendation_row :=
  {| row_match_score := row_match_score r;
     row_skill_match_pct := row_skill_match_pct r;
     row_experience_match := row_experience_match r;
     row_recommendation_reason := row_recommendation_reason r;
     row_is_viewed := true;
     row_is_applied := row_is_applied r;
     row_created_at := row_created_at r;
     row_expires_at := row_expires_at r |}.

Definition set_applied (r : recommendation_row) : recommendation_row :=
  {| row_match_score := row_match_score r;
     row_skill_match_pct := row_skill_match_pct r;
     row_experience_match := row_experience_match r;
     row_recommendation_reason := row_recommendation_reason r;
     row_is_viewed := row_is_viewed r;
     row_is_applied := true;
     row_created_at := row_created_at r;
     row_expires_at := row_expires_at r |}.

Definition update_where (f : recommendation_row -> recommendation_row)
    (student_id job_id : Z) (t : ai_recommendations) : ai_recommendations * Z :=
  (alter f (student_id, job_id) t,
   match t !! (student_id, job_id) with Some _ => 1 | None => 0 end).

(** [RecommendationService.mark_recommendation_viewed]. *)
Definition mark_recommendation_viewed (student_id job_id : Z)
    (t : ai_recommendations) : ai_recommendations * bool :=
  let '(t', rowcount) := update_where set_viewed student_id job_id t in
  (t', 0 <? rowcount).

(** [RecommendationService.mark_recommendation_applied]. *)
Definition mark_recommendation_applied (student_id job_id : Z)
    (t : ai_recommendations) : ai_recommendations * bool :=
  let '(t', rowcount) := update_where set_applied student_id job_id t in
  (t', 0 <? rowcount).

(* ================================================================== *)
(** ** Reference formulas and sample data *)
(* ================================================================== *)

(** The skill-match ratio as the specification words it: one hundred times
    the size of the case-insensitive intersection over the number of
    required skills. *)
Definition spec_skill_match_percentage
    (candidate_skills required_skills : list string) : Q :=
  match required_skills with
  | [] => 100%Q
  | _ =>
      let inter : gset string :=
        list_to_set (Py.lower <$> candidate_skills)
        ∩ list_to_set (Py.lower <$> required_skills) in
      (100 * inject_Z (Z.of_nat (size inter))
       / inject_Z (Z.of_nat (length required_skills)))%Q
  end.


(** [a] may stand before [b] in a list sorted by [key] with
    [reverse=True]. *)
Definition before {A} (key : A -> Q) (a b : A) : Prop := (key b <= key a)%Q.

(** The kept entries of a list of scored jobs, sorted as line 446 does. *)
Definition ranked (min_score : Q) (scs : list scored) : list recommendation :=
  sort_reverse rec_match_score
    (entry <$> List.filter (fun sc => Qle_bool min_score (sc_combined_score sc)) scs).

(** A square root that is exact on the squares of rationals (and rounds
    down the numerator otherwise); it instantiates [np_sqrt] when the
    service is run on sample vectors with rational norms. *)
Definition sqrt_on_squares (q : Q) : Q :=
  (Z.sqrt (Qnum q * Z.pos (Qden q)) # Qden q)%Q.

(** Sample data: a candidate whose cached vector is [(1, 0)], two open
    jobs whose cached vectors have the rational norms 10001 and 10202 and
    no parsed description, and one closed job. *)
Definition sample_resume : parsed_resume :=
  {| pr_skills := Some ["Python"; "SQL"]%string;
     pr_experience_years := Some 1%Q;
     pr_education := None;
     pr_experience := None |}.

Definition sample_job (id : Z) (name state : string) : job_row :=
  {| job_id := id; title := name; company_id := 1;
     min_experience := 0; max_experience := Some 3; status := state |}.

Definition sample_world : collaborators :=
  {| parsed_resumes := {[ 1 := {| rd_parsed_data := Some sample_resume |} ]};
     parsed_job_descriptions := ∅;
     jobs := [sample_job 10 "Backend" "open"; sample_job 11 "Data" "open";
              sample_job 12 "Old" "closed"] |}.

Definition sample_vector (x y : Z) : cache_doc :=
  {| cd_embedding := [inject_Z x; inject_Z y]; cd_text_hash := "" |}.

Definition sample_cache : cache :=
  <[("student"%string, 1) := sample_vector 1 0]>
    (<[("job"%string, 10) := sample_vector 9999 200]>
       (<[("job"%string, 11) := sample_vector 10200 202]> ∅)).

(** Stand-ins for the hashing and printing parameters where a sample run
    needs some value for them. *)
Definition sample_digest (word : string) : list Z :=
  replicate 32 (Z.of_nat (String.length word)).

Definition sample_hexdigest (text : string) : string := text.

Definition sample_str_float (x : Q) : string := Py.str_int (Py.int x).




(* ================================================================== *)
(** ** Further operations of the services and their callers *)
(* ================================================================== *)

(** A text without a word: all its characters are white space. *)
Fixpoint blank (s : string) : bool :=
  match s with
  | EmptyString => true
  | String c r => Py.is_space c && blank r
  end.

(** [EmbeddingCacheService.delete_embedding]: the document of the key is
    removed; the result is [deleted_count > 0]. *)
Definition delete_embedding (entity_type : string) (entity_id : Z) : M bool :=
  fun c =>
    (inr (match c !! (entity_type, entity_id) with
          | Some _ => true
          | None => false
          end),
     delete (entity_type, entity_id) c).

(** [EmbeddingCacheService.get_all_job_embeddings]: the pairs
    [(job_id, embedding)] of the documents whose [entity_type] is ["job"],
    in the order the collection enumerates them. *)
Definition get_all_job_embeddings : M (list (Z * list Q)) :=
  fun c =>
    (inr ((fun kv : string * Z * cache_doc => (snd (fst kv), cd_embedding (snd kv)))
            <$> List.filter
                  (fun kv : string * Z * cache_doc => String.eqb (fst (fst kv)) "job")
                  (map_to_list c)),
     c).

(** A row of the result of [get_student_recommendations]. *)
Record listed_recommendation := {
  lr_job_id : Z;
  lr_job_title : string;
  lr_company_name : string;
  lr_match_score : Q;
  lr_skill_match_pct : Q;
  lr_experience_match : bool;
  lr_recommendation_reason : string;
  lr_is_viewed : bool;
  lr_is_applied : bool;
  lr_created_at : Z }.

(** The [FROM ... JOIN ... WHERE ...] part of the query of
    [get_student_recommendations]: the recommendation rows of the student
    that have not expired (and, unless [include_applied], are not applied),
    each joined with the open jobs of its [job_id] and the company of the
    job.  [companies] maps a [company_id] to the [company_name]. *)
Definition joined_recommendations (current_timestamp : Z) (jobs : list job_row)
    (companies : gmap Z string) (student_id : Z) (include_applied : bool)
    (t : ai_recommendations) : list listed_recommendation :=
  flat_map
    (fun kv : Z * Z * recommendation_row =>
       let r := snd kv in
       if (fst (fst kv) =? student_id)
          && (current_timestamp <? row_expires_at r)
          && (include_applied || negb (row_is_applied r))
       then
         flat_map
           (fun j =>
              if (job_id j =? snd (fst kv)) && String.eqb (status j) "open" then
                match companies !! company_id j with
                | Some company_name =>
                    [{| lr_job_id := snd (fst kv);
                        lr_job_title := title j;
                        lr_company_name := company_name;
                        lr_match_score := row_match_score r;
                        lr_skill_match_pct := row_skill_match_pct r;
                        lr_experience_match := row_experience_match r;
                        lr_recommendation_reason := row_recommendation_reason r;
                        lr_is_viewed := row_is_viewed r;
                        lr_is_applied := row_is_applied r;
                        lr_created_at := row_created_at r |}]
                | None => []
                end
              else [])
           jobs
       else [])
    (map_to_list t).

(** [RecommendationService.get_student_recommendations]: the joined rows
    in the order of [ORDER BY r.match_score DESC].  The database leaves the
    order of rows with equal scores open; the model keeps them in the order
    of the join. *)
Definition get_student_recommendations (current_timestamp : Z)
    (jobs : list job_row) (companies : gmap Z string) (student_id : Z)
    (include_applied : bool) (t : ai_recommendations)
  : list listed_recommendation :=
  sort_reverse lr_match_score
    (joined_recommendations current_timestamp jobs companies student_id
       include_applied t).

(** What a route returns or raises. *)
Inductive response : Type :=
| MessageResponse (message : string) (success : bool)
| HTTPException (status_code : Z) (detail : string)
| Unhandled (e : Py.exn).

(** The route [PUT /recommendations/{job_id}/viewed]. *)
Definition mark_viewed_route (job_id student_id : Z) (t : ai_recommendations)
  : response * ai_recommendations :=
  let '(t', success) := mark_recommendation_viewed student_id job_id t in
  if success then (MessageResponse "Marked as viewed" true, t')
  else (HTTPException 404 "Recommendation not found", t').

(** A row of [applications], with the columns [apply_to_job] writes. *)
Record application := {
  app_student_id : Z;
  app_job_id : Z;
  app_cover_letter : option string;
  app_status : string }.

(** The route [POST /jobs/{job_id}/apply].  An exception leaves the
    transaction without effect. *)
Definition apply_to_job (jobs : list job_row) (job_id0 : Z)
    (cover_letter : option string) (student_id : Z)
    (st : list application * ai_recommendations)
  : response * (list application * ai_recommendations) :=
  match List.find (fun j => job_id j =? job_id0) jobs with
  | None => (HTTPException 404 "Job not found", st)
  | Some job =>
      if negb (String.eqb (status job) "open") then
        (HTTPException 400 "Job is not accepting applications", st)
      else if existsb
                (fun a => (app_student_id a =? student_id)
                          && (app_job_id a =? job_id0))
                (fst st)
      then (HTTPException 400 "Already applied to this job", st)
      else
        (MessageResponse "Application submitted successfully" true,
         (fst st ++ [{| app_student_id := student_id;
                        app_job_id := job_id0;
                        app_cover_letter := cover_letter;
                        app_status := "applied" |}],
          fst (update_where set_applied student_id job_id0 (snd st))))
  end.

Section Routes.

Variable np_sqrt : Q -> Q.
Variable sha256_digest : string -> list Z.
Variable md5_hexdigest : string -> string.
Variable str_float : Q -> string.

(** The route [POST /recommendations/generate].  [students] maps a
    [student_id] to the [resume_mongo_id] column of its row. *)
Definition generate_recommendations_route (dflt : column_defaults)
    (utcnow current_timestamp : Z) (students : gmap Z (option string))
    (w : collaborators) (top_n : Z) (min_score : Q) (student_id : Z)
    (st : cache * ai_recommendations)
  : response * (cache * ai_recommendations) :=
  match students !! student_id with
  | Some (Some (String _ _)) =>
      match generate_recommendations np_sqrt sha256_digest md5_hexdigest
              str_float w student_id top_n min_score (fst st) with
      | (inl e, c') => (Unhandled e, (c', snd st))
      | (inr [], c') =>
          (MessageResponse "No matching jobs found. Try lowering minimum score."
             true,
           (c', snd st))
      | (inr recommendations, c') =>
          let '(t', stored) :=
            store_recommendations dflt utcnow current_timestamp student_id
              recommendations (snd st) in
          (MessageResponse
             ("Generated " ++ Py.str_int stored ++ " job recommendations") true,
           (c', t'))
      end
  | _ => (HTTPException 400 "Upload resume first to get recommendations", st)
  end.

End Routes.

(** The cache [c'] differs from [c] only by documents with 256-entry
    vectors written under keys allowed by [allowed] that held no usable
    vector. *)
Definition cache_extended (allowed : string * Z -> Prop) (c c' : cache) : Prop :=
  forall k,
    c' !! k = c !! k
    \/ (truthy (cd_embedding <$> c !! k) = false
        /\ allowed k
        /\ exists doc, c' !! k = Some doc /\ length (cd_embedding doc) = 256%nat).

(** The result row for recommendation row [r] of job [jid], joined with the
    job row [j] and the company name. *)
Definition listed_row (jid : Z) (j : job_row) (company_name : string)
    (r : recommendation_row) : listed_recommendation :=
  {| lr_job_id := jid;
     lr_job_title := title j;
     lr_company_name := company_name;
     lr_match_score := row_match_score r;
     lr_skill_match_pct := row_skill_match_pct r;
     lr_experience_match := row_experience_match r;
     lr_recommendation_reason := row_recommendation_reason r;
     lr_is_viewed := row_is_viewed r;
     lr_is_applied := row_is_applied r;
     lr_created_at := row_created_at r |}.

(** The conditions under which [x] is listed for the student. *)
Definition listable (current_timestamp : Z) (jobs : list job_row)
    (companies : gmap Z string) (student_id : Z) (include_applied : bool)
    (t : ai_recommendations) (x : listed_recommendation) : Prop :=
  exists r j company_name,
    t !! (student_id, lr_job_id x) = Some r
    /\ current_timestamp < row_expires_at r
    /\ (include_applied = true \/ row_is_applied r = false)
    /\ In j jobs /\ job_id j = lr_job_id x /\ status j = "open"%string
    /\ companies !! company_id j = Some company_name
    /\ x = listed_row (lr_job_id x) j company_name r.





(* ================================================================== *)
(** ** The scoring kernel *)
(* ================================================================== *)

Lemma inject_nat_nonneg (n : nat) : (0 <= inject_Z (Z.of_nat n))%Q.
Proof. change 0%Q with (inject_Z 0). rewrite <- Zle_Qle. lia. Qed.

Lemma inject_nat_le (n m : nat) :
  (n <= m)%nat -> (inject_Z (Z.of_nat n) <= inject_Z (Z.of_nat m))%Q.
Proof. intros H. rewrite <- Zle_Qle. lia. Qed.

Lemma inject_nat_pos (n : nat) : (0 < n)%nat -> (0 < inject_Z (Z.of_nat n))%Q.
Proof. intros H. change 0%Q with (inject_Z 0). rewrite <- Zlt_Qlt. lia. Qed.

Lemma ratio_bounds (k n : Q) :
  (0 <= k)%Q -> (k <= n)%Q -> (0 < n)%Q ->
  (0 <= k / n * 100)%Q /\ (k / n * 100 <= 100)%Q.
Proof.
  intros Hk Hkn Hn.
  assert (H0 : (0 <= k / n)%Q).
  { apply Qle_shift_div_l; [exact Hn | lra]. }
  assert (H1 : (k / n <= 1)%Q).
  { apply Qle_shift_div_r; [exact Hn | lra]. }
  split; lra.
Qed.

Lemma lowered_set_size_pos (x : string) (l : list string) :
  (0 < size (list_to_set (Py.lower <$> (x :: l)) : gset string))%nat.
Proof.
  enough (size (list_to_set (Py.lower <$> (x :: l)) : gset string) ≠ 0%nat) by lia.
  apply size_non_empty_iff. rewrite fmap_cons, list_to_set_cons.
  intros He. apply (not_elem_of_empty (C := gset string) (Py.lower x)).
  rewrite <- He. set_solver.
Qed.

(** C3 (as worded): with two required skills equal up to case, the ratio the
    code returns is taken over the one distinct lower-cased skill, not over
    the two entries of the list. *)
Lemma skill_match_duplicates_counterexample :
  let candidate := ["python"]%string in
  let required := ["Python"; "python"]%string in
  (compute_skill_match_percentage candidate required == 100)%Q
  /\ (spec_skill_match_percentage candidate required == 50)%Q
  /\ ~ (compute_skill_match_percentage candidate required
        == spec_skill_match_percentage candidate required)%Q.
Proof. vm_compute. repeat split; discriminate. Qed.

(** C3 (amended): [compute_skill_match_percentage] returns 100 for an empty
    requirement list; otherwise it returns one hundred times the size of the
    case-insensitive intersection over the number of distinct lower-cased
    required skills, which is the length of the list when no two required
    skills are equal up to case.  The result lies in [0,100], and the three
    worked examples hold. *)
Theorem compute_skill_match_percentage_spec :
  forall student_skills required_skills : list string,
    let student_lower : gset string := list_to_set (Py.lower <$> student_skills) in
    let required_lower : gset string := list_to_set (Py.lower <$> required_skills) in
    let result := compute_skill_match_percentage student_skills required_skills in
    (required_skills = [] -> result = 100%Q)
    /\ (required_skills <> [] ->
        (result == 100 * inject_Z (Z.of_nat (size (student_lower ∩ required_lower)))
                   / inject_Z (Z.of_nat (size required_lower)))%Q)
    /\ (required_skills <> [] -> NoDup (Py.lower <$> required_skills) ->
        (result == spec_skill_match_percentage student_skills required_skills)%Q)
    /\ (0 <= result)%Q /\ (result <= 100)%Q
    /\ (compute_skill_match_percentage
          ["Python"; "SQL"; "Docker"]%string ["Python"; "SQL"; "Docker"]%string == 100)%Q
    /\ (compute_skill_match_percentage
          ["Python"; "JavaScript"]%string
          ["Python"; "SQL"; "Docker"; "AWS"]%string == 25)%Q
    /\ (compute_skill_match_percentage ["python"]%string ["Python"]%string == 100)%Q.
Proof.
  intros student_skills required_skills student_lower required_lower result.
  assert (Hex : forall a b : Q, (a / b * 100 == 100 * a / b)%Q).
  { intros a b. unfold Qdiv. ring. }
  split; [intros ->; reflexivity |].
  split.
  { intros Hne. subst result. destruct required_skills as [|r rs]; [congruence |].
    unfold compute_skill_match_percentage. apply Hex. }
  split.
  { intros Hne Hnd. subst result. destruct required_skills as [|r rs]; [congruence |].
    unfold compute_skill_match_percentage, spec_skill_match_percentage.
    rewrite (size_list_to_set (C := gset string) _ Hnd), length_fmap. apply Hex. }
  split; [| split].
  - subst result. destruct required_skills as [|r rs]; [vm_compute; discriminate |].
    unfold compute_skill_match_percentage.
    apply ratio_bounds.
    + apply inject_nat_nonneg.
    + apply inject_nat_le, subseteq_size, intersection_subseteq_r.
    + apply inject_nat_pos, lowered_set_size_pos.
  - subst result. destruct required_skills as [|r rs]; [vm_compute; discriminate |].
    unfold compute_skill_match_percentage.
    apply ratio_bounds.
    + apply inject_nat_nonneg.
    + apply inject_nat_le, subseteq_size, intersection_subseteq_r.
    + apply inject_nat_pos, lowered_set_size_pos.
  - repeat split; vm_compute; reflexivity.
Qed.

(** C4: [check_experience_match] is false below the minimum; from the
    minimum on it is true when no maximum is set, true when the years are at
    most the maximum plus 2, and false beyond that.  The five worked
    examples hold. *)
Theorem check_experience_match_spec :
  forall (years : Q) (min_required : Z) (max_required : option Z),
    ((years < inject_Z min_required)%Q ->
       check_experience_match years min_required max_required = false)
    /\ ((inject_Z min_required <= years)%Q -> max_required = None ->
          check_experience_match years min_required max_required = true)
    /\ (forall m, (inject_Z min_required <= years)%Q -> max_required = Some m ->
          (years <= inject_Z m + 2)%Q ->
          check_experience_match years min_required max_required = true)
    /\ (forall m, (inject_Z min_required <= years)%Q -> max_required = Some m ->
          (inject_Z m + 2 < years)%Q ->
          check_experience_match years min_required max_required = false)
    /\ check_experience_match 2 1 (Some 3) = true
    /\ check_experience_match (1 # 2) 2 (Some 5) = false
    /\ check_experience_match 5 2 (Some 4) = true
    /\ check_experience_match 10 2 (Some 4) = false
    /\ check_experience_match 15 5 None = true.
Proof.
  intros years min_required max_required.
  assert (Hplus : forall m, (inject_Z (m + 2) == inject_Z m + 2)%Q).
  { intros m. rewrite inject_Z_plus. reflexivity. }
  unfold check_experience_match.
  repeat split; try reflexivity.
  - intros Hlt. destruct (Qlt_le_dec years (inject_Z min_required)); [reflexivity | lra].
  - intros Hge ->. destruct (Qlt_le_dec years (inject_Z min_required)); [lra | reflexivity].
  - intros m Hge -> Hle. specialize (Hplus m).
    destruct (Qlt_le_dec years (inject_Z min_required)); [lra |].
    destruct (Qlt_le_dec (inject_Z (m + 2)) years); [lra | reflexivity].
  - intros m Hge -> Hgt. specialize (Hplus m).
    destruct (Qlt_le_dec years (inject_Z min_required)); [lra |].
    destruct (Qlt_le_dec (inject_Z (m + 2)) years); [reflexivity | lra].
Qed.

Section CosineFacts.

Variable np_sqrt : Q -> Q.


End CosineFacts.



(* ================================================================== *)
(** ** The stable descending sort *)
(* ================================================================== *)

Section SortFacts.

Context {A : Type} (key : A -> Q).

Lemma insert_reverse_perm (x : A) (l : list A) :
  Permutation (insert_reverse key x l) (x :: l).
Proof.
  induction l as [|y l IH]; simpl; [reflexivity |].
  destruct (Qlt_le_dec (key x) (key y)); [| reflexivity].
  rewrite IH. apply perm_swap.
Qed.

Lemma sort_reverse_perm (l : list A) : Permutation (sort_reverse key l) l.
Proof.
  induction l as [|x l IH]; simpl; [reflexivity |].
  rewrite insert_reverse_perm. constructor. exact IH.
Qed.

Lemma insert_reverse_sorted (x : A) (l : list A) :
  StronglySorted (before key) l -> StronglySorted (before key) (insert_reverse key x l).
Proof.
  induction l as [|y l IH]; intros Hs; simpl.
  - constructor; constructor.
  - inversion Hs as [|? ? Hl Hy]; subst.
    destruct (Qlt_le_dec (key x) (key y)) as [Hlt | Hle].
    + constructor; [apply IH; exact Hl |].
      rewrite insert_reverse_perm. constructor; [| exact Hy].
      unfold before. apply Qlt_le_weak. exact Hlt.
    + constructor; [exact Hs |].
      constructor; [exact Hle |].
      eapply Forall_impl; [exact Hy |].
      intros z Hz. unfold before in *. eapply Qle_trans; eassumption.
Qed.

Lemma sort_reverse_sorted (l : list A) : StronglySorted (before key) (sort_reverse key l).
Proof.
  induction l as [|x l IH]; simpl; [constructor |].
  apply insert_reverse_sorted. exact IH.
Qed.



End SortFacts.

Lemma slice_to_nonneg {A} (l : list A) (n : Z) :
  0 <= n -> Py.slice_to l n = take (Z.to_nat n) l.
Proof. intros H. unfold Py.slice_to. destruct (Z.ltb_spec n 0); [lia | reflexivity]. Qed.

Lemma slice_to_nil {A} (n : Z) : Py.slice_to (@nil A) n = [].
Proof. unfold Py.slice_to. destruct (n <? 0); apply take_nil. Qed.

Lemma slice_ranked_nil (min_score : Q) (n : Z) :
  Py.slice_to (ranked min_score []) n = [].
Proof. apply slice_to_nil. Qed.


(* ================================================================== *)
(** ** Rounding *)
(* ================================================================== *)

Lemma round_half_even_near (y : Q) :
  (Qabs (inject_Z (Py.round_half_even y) - y) <= 1 # 2)%Q.
Proof.
  unfold Py.round_half_even.
  pose proof (Qfloor_le y) as Hlo. pose proof (Qlt_floor y) as Hhi.
  rewrite inject_Z_plus in Hhi. change (inject_Z 1) with 1%Q in Hhi.
  set (f := Qfloor y) in *.
  apply Qabs_Qle_condition.
  destruct (Qcompare_spec (y - inject_Z f) (1 # 2)) as [He | Hl | Hg].
  - destruct (Z.even f); [| rewrite inject_Z_plus; change (inject_Z 1) with 1%Q];
      split; lra.
  - split; lra.
  - rewrite inject_Z_plus; change (inject_Z 1) with 1%Q. split; lra.
Qed.

Lemma pow10_pos (n : nat) : (0 < inject_Z (10 ^ Z.of_nat n))%Q.
Proof.
  change 0%Q with (inject_Z 0). rewrite <- Zlt_Qlt. apply Z.pow_pos_nonneg; lia.
Qed.

Lemma round_spec (x : Q) (n : nat) :
  let p := inject_Z (10 ^ Z.of_nat n) in
  (exists k : Z, (Py.round x n == inject_Z k / p)%Q)
  /\ (Qabs (Py.round x n - x) <= (1 # 2) / p)%Q.
Proof.
  intros p. pose proof (pow10_pos n) as Hp. fold p in Hp.
  unfold Py.round. fold p.
  split; [eexists; apply Qred_correct |]. rewrite Qred_correct.
  pose proof (round_half_even_near (x * p)) as Hn.
  set (r := inject_Z (Py.round_half_even (x * p))) in *.
  apply Qabs_Qle_condition in Hn. destruct Hn as [H1 H2].
  apply Qabs_Qle_condition.
  assert (Hx : (r / p - x == (r - x * p) / p)%Q) by (field; lra).
  rewrite Hx.
  split.
  - apply Qle_shift_div_l; [exact Hp |].
    assert (Hq : (- ((1 # 2) / p) * p == - (1 # 2))%Q) by (field; lra).
    rewrite Hq. exact H1.
  - apply Qle_shift_div_r; [exact Hp |].
    assert (Hq : ((1 # 2) / p * p == 1 # 2)%Q) by (field; lra).
    rewrite Hq. exact H2.
Qed.

(* ================================================================== *)
(** ** The embedding cache is write-through *)
(* ================================================================== *)

Section EngineFacts.

Variable np_sqrt : Q -> Q.
Variable sha256_digest : string -> list Z.
Variable md5_hexdigest : string -> string.
Variable str_float : Q -> string.

Local Abbreviation gen := (_generate_simple_embedding np_sqrt sha256_digest).
Local Abbreviation get_student := (get_student_embedding np_sqrt sha256_digest md5_hexdigest str_float).
Local Abbreviation get_job := (get_job_embedding np_sqrt sha256_digest md5_hexdigest).
Local Abbreviation res_student := (resolve_student np_sqrt sha256_digest md5_hexdigest str_float).
Local Abbreviation res_job := (resolve_job np_sqrt sha256_digest md5_hexdigest).
Local Abbreviation proj_student :=
  (projected_student np_sqrt sha256_digest str_float).
Local Abbreviation proj_job := (projected_job np_sqrt sha256_digest).
Local Abbreviation coherent :=
  (coherent np_sqrt sha256_digest md5_hexdigest str_float).

Lemma resolve_student_eq (w : collaborators) (c : cache) (student_id : Z) :
  res_student w c student_id
  = inr (if truthy (cached c "student" student_id)
         then cached c "student" student_id
         else proj_student w student_id).
Proof.
  unfold resolve_student, get_student_embedding, projected_student, cached,
    bind, get_embedding, ret, store_embedding.
  destruct (truthy (cd_embedding <$> c !! ("student"%string, student_id)));
    [reflexivity |].
  destruct (parsed_resumes w !! student_id) as [[[pd|]]|]; reflexivity.
Qed.

Lemma resolve_job_eq (w : collaborators) (c : cache) (job_id : Z) :
  res_job w c job_id
  = inr (if truthy (cached c "job" job_id)
         then cached c "job" job_id
         else proj_job w job_id).
Proof.
  unfold resolve_job, get_job_embedding, projected_job, cached,
    bind, get_embedding, ret, store_embedding.
  destruct (truthy (cd_embedding <$> c !! ("job"%string, job_id)));
    [reflexivity |].
  destruct (parsed_job_descriptions w !! job_id) as [[[pd|]]|]; reflexivity.
Qed.

Lemma coherent_refl (w : collaborators) (c : cache) : coherent w c c.
Proof. intros id. split; reflexivity. Qed.

Lemma coherent_trans (w : collaborators) (c1 c2 c3 : cache) :
  coherent w c1 c2 -> coherent w c2 c3 -> coherent w c1 c3.
Proof.
  intros H12 H23 id. destruct (H12 id), (H23 id). split; congruence.
Qed.

Lemma get_student_embedding_coherent (w : collaborators) (student_id : Z) (c : cache) :
  coherent w c (snd (get_student w student_id false c)).
Proof.
  unfold get_student_embedding, bind, get_embedding, ret, store_embedding.
  destruct (truthy (cd_embedding <$> c !! ("student"%string, student_id))) eqn:Ht;
    [apply coherent_refl |].
  destruct (parsed_resumes w !! student_id) as [[[pd|]]|] eqn:Hdoc;
    try apply coherent_refl.
  cbn [snd]. intros id. rewrite !resolve_student_eq, !resolve_job_eq.
  unfold cached. split.
  - destruct (decide (id = student_id)) as [-> | Hne].
    + rewrite lookup_insert_eq, Ht. unfold projected_student. rewrite Hdoc.
      cbn [fmap option_fmap option_map cd_embedding].
      match goal with |- context [truthy ?o] => destruct (truthy o) end;
        reflexivity.
    + rewrite lookup_insert_ne by congruence. reflexivity.
  - rewrite lookup_insert_ne by congruence. reflexivity.
Qed.

Lemma get_job_embedding_coherent (w : collaborators) (job_id : Z) (c : cache) :
  coherent w c (snd (get_job w job_id false c)).
Proof.
  unfold get_job_embedding, bind, get_embedding, ret, store_embedding.
  destruct (truthy (cd_embedding <$> c !! ("job"%string, job_id))) eqn:Ht;
    [apply coherent_refl |].
  destruct (parsed_job_descriptions w !! job_id) as [[[pd|]]|] eqn:Hdoc;
    try apply coherent_refl.
  cbn [snd]. intros id. rewrite !resolve_student_eq, !resolve_job_eq.
  unfold cached. split.
  - rewrite lookup_insert_ne by congruence. reflexivity.
  - destruct (decide (id = job_id)) as [-> | Hne].
    + rewrite lookup_insert_eq, Ht. unfold projected_job. rewrite Hdoc.
      cbn [fmap option_fmap option_map cd_embedding].
      match goal with |- context [truthy ?o] => destruct (truthy o) end;
        reflexivity.
    + rewrite lookup_insert_ne by congruence. reflexivity.
Qed.

Lemma score_all_coherent (w : collaborators) (c c' : cache)
    (se : list Q) (ss : list string) (sx : Q) (l : list job_row) :
  coherent w c c' ->
  score_all np_sqrt sha256_digest md5_hexdigest w c' se ss sx l
  = score_all np_sqrt sha256_digest md5_hexdigest w c se ss sx l.
Proof.
  intros Hc. induction l as [|job rest IH]; [reflexivity |].
  cbn [score_all]. destruct (Hc (job_id job)) as [_ ->]. rewrite IH. reflexivity.
Qed.

Lemma keep_fold (min_score : Q) (scs : list scored) (acc : list recommendation) :
  fold_left (keep min_score) scs acc
  = acc ++ (entry <$>
              List.filter (fun sc => Qle_bool min_score (sc_combined_score sc)) scs).
Proof.
  revert acc. induction scs as [|sc scs IH]; intros acc; cbn [fold_left List.filter].
  - cbn. rewrite app_nil_r. reflexivity.
  - rewrite IH. unfold keep.
    destruct (Qle_bool min_score (sc_combined_score sc)).
    + rewrite fmap_cons, <- app_assoc. reflexivity.
    + reflexivity.
Qed.

Lemma bind_run {A B} (m : M A) (k : A -> M B) (c : cache) :
  bind m k c
  = match m c with
    | (inr a, c') => k a c'
    | (inl e, c') => (inl e, c')
    end.
Proof. reflexivity. Qed.

Lemma for_each_cons {A B} (body : B -> A -> M B) (x : A) (l : list A)
    (acc : B) (c : cache) :
  for_each body (x :: l) acc c
  = match body acc x c with
    | (inr acc', c') => for_each body l acc' c'
    | (inl e, c') => (inl e, c')
    end.
Proof. reflexivity. Qed.

(** One iteration: the job's embedding is the one the cache resolves to. *)
Lemma loop_body_run (w : collaborators)
    (se : list Q) (ss : list string) (sx : Q) (min_score : Q)
    (acc : list recommendation) (job : job_row) (c : cache) :
  loop_body np_sqrt sha256_digest md5_hexdigest w se ss sx min_score acc job c
  = (match res_job w c (job_id job) with
     | inl e => inl e
     | inr job_embedding =>
         match score_with_embedding np_sqrt w se ss sx job job_embedding with
         | inl e => inl e
         | inr (Some sc) => inr (keep min_score acc sc)
         | inr None => inr acc
         end
     end,
     snd (get_job w (job_id job) false c)).
Proof.
  unfold loop_body, score_job, bind, lift, ret, resolve_job.
  destruct (get_job w (job_id job) false c) as [[e | job_embedding] c1];
    [reflexivity |].
  cbn [fst snd].
  destruct (score_with_embedding np_sqrt w se ss sx job job_embedding)
    as [e | [sc |]]; reflexivity.
Qed.

(** The loop returns what [score_all] and [keep] compute from the cache it
    started with, and leaves behind a cache that resolves every entity as
    before. *)
Lemma for_each_loop_body (w : collaborators)
    (se : list Q) (ss : list string) (sx : Q) (min_score : Q)
    (l : list job_row) (acc : list recommendation) (c : cache) :
  let run :=
    for_each (loop_body np_sqrt sha256_digest md5_hexdigest w se ss sx min_score)
      l acc c in
  coherent w c (snd run)
  /\ fst run
     = match score_all np_sqrt sha256_digest md5_hexdigest w c se ss sx l with
       | inl e => inl e
       | inr scs => inr (fold_left (keep min_score) scs acc)
       end.
Proof.
  cbn zeta. revert acc c. induction l as [|job rest IH]; intros acc c.
  - split; [apply coherent_refl | reflexivity].
  - rewrite for_each_cons, loop_body_run. cbn [score_all].
    pose proof (get_job_embedding_coherent w (job_id job) c) as Hc1.
    set (c1 := snd (get_job w (job_id job) false c)) in *.
    destruct (res_job w c (job_id job)) as [e | job_embedding];
      [split; [exact Hc1 | reflexivity] |].
    destruct (score_with_embedding np_sqrt w se ss sx job job_embedding)
      as [e | o]; [split; [exact Hc1 | reflexivity] |].
    rewrite <- (score_all_coherent w c c1) by exact Hc1.
    destruct o as [sc |].
    + destruct (IH (keep min_score acc sc) c1) as [Hc2 Hf].
      split; [eapply coherent_trans; eassumption |].
      rewrite Hf. destruct (score_all _ _ _ w c1 se ss sx rest); reflexivity.
    + destruct (IH acc c1) as [Hc2 Hf].
      split; [eapply coherent_trans; eassumption |].
      rewrite Hf. destruct (score_all _ _ _ w c1 se ss sx rest); reflexivity.
Qed.

(** The whole of [generate_recommendations] as a function of the cache it
    starts with. *)
Lemma generate_recommendations_run (w : collaborators) (student_id top_n : Z)
    (min_score : Q) (c : cache) :
  let run :=
    generate_recommendations np_sqrt sha256_digest md5_hexdigest str_float
      w student_id top_n min_score c in
  coherent w c (snd run)
  /\ fst run
     = match scored_open_jobs np_sqrt sha256_digest md5_hexdigest str_float
               w c student_id with
       | inl e => inl e
       | inr scs => inr (Py.slice_to (ranked min_score scs) top_n)
       end.
Proof.
  cbn zeta.
  destruct (generate_recommendations _ _ _ _ w student_id top_n min_score c)
    as [r2 c2] eqn:Hrun.
  cbn [fst snd]. unfold generate_recommendations in Hrun.
  rewrite bind_run in Hrun. unfold scored_open_jobs.
  pose proof (get_student_embedding_coherent w student_id c) as Hc1.
  assert (Hr : fst (get_student w student_id false c) = res_student w c student_id)
    by reflexivity.
  destruct (get_student w student_id false c) as [r c1].
  cbn [fst snd] in Hc1, Hr. rewrite <- Hr.
  destruct r as [e | [[|x v]|]];
    try (injection Hrun as <- <-; split;
         [exact Hc1 | rewrite ?slice_ranked_nil; reflexivity]).
  destruct (parsed_resumes w !! student_id) as [student_doc|];
    [| injection Hrun as <- <-; split;
       [exact Hc1 | rewrite slice_ranked_nil; reflexivity]].
  rewrite bind_run in Hrun.
  match type of Hrun with
  | context [for_each ?b ?l ?a c1] =>
      pose proof (for_each_loop_body w (x :: v)
                    (default [] (rd_parsed_data student_doc ≫= pr_skills))
                    (default 0%Q (rd_parsed_data student_doc ≫= pr_experience_years))
                    min_score l a c1) as Hloop
  end.
  cbn zeta in Hloop. destruct Hloop as [Hc2 Hf].
  rewrite (score_all_coherent w c c1) in Hf by exact Hc1.
  destruct (for_each _ _ _ c1) as [r3 c3]. cbn [fst snd] in Hc2, Hf. subst r3.
  destruct (score_all _ _ _ w c _ _ _ _) as [e | scs].
  - injection Hrun as <- <-.
    split; [eapply coherent_trans; eassumption | reflexivity].
  - unfold ret in Hrun. injection Hrun as <- <-.
    split; [eapply coherent_trans; eassumption |].
    rewrite keep_fold. reflexivity.
Qed.

Lemma scored_open_jobs_coherent (w : collaborators) (c c' : cache) (student_id : Z) :
  coherent w c c' ->
  scored_open_jobs np_sqrt sha256_digest md5_hexdigest str_float w c' student_id
  = scored_open_jobs np_sqrt sha256_digest md5_hexdigest str_float w c student_id.
Proof.
  intros Hc. unfold scored_open_jobs. destruct (Hc student_id) as [-> _].
  destruct (res_student w c student_id) as [e | [[|x v]|]]; try reflexivity.
  destruct (parsed_resumes w !! student_id); [| reflexivity].
  apply score_all_coherent. exact Hc.
Qed.


(** C9: the projection of a feature text depends on the text alone, a
    forced regeneration yields the same vector whatever the cache holds, and
    a second run of [generate_recommendations] on the cache the first run
    left behind returns the result of the first. *)
Theorem generate_recommendations_deterministic :
  forall (w : collaborators) (student_id top_n : Z) (min_score : Q) (c : cache),
    (forall text1 text2 : string, text1 = text2 -> gen text1 = gen text2)
    /\ (forall (id : Z) (c1 c2 : cache),
          fst (get_student w id true c1) = fst (get_student w id true c2)
          /\ fst (get_job w id true c1) = fst (get_job w id true c2))
    /\ (let first :=
          generate_recommendations np_sqrt sha256_digest md5_hexdigest str_float
            w student_id top_n min_score c in
        let second :=
          generate_recommendations np_sqrt sha256_digest md5_hexdigest str_float
            w student_id top_n min_score (snd first) in
        fst second = fst first).
Proof.
  intros w student_id top_n min_score c.
  split; [intros text1 text2 ->; reflexivity |].
  split.
  { intros id c1 c2.
    unfold get_student_embedding, get_job_embedding, bind, ret, store_embedding.
    cbn [truthy]. split.
    - destruct (parsed_resumes w !! id) as [[[pd|]]|]; reflexivity.
    - destruct (parsed_job_descriptions w !! id) as [[[pd|]]|]; reflexivity. }
  cbn zeta.
  destruct (generate_recommendations_run w student_id top_n min_score c)
    as [Hc Hfirst].
  set (c' := snd (generate_recommendations _ _ _ _ w student_id top_n min_score c))
    in *.
  destruct (generate_recommendations_run w student_id top_n min_score c')
    as [_ Hsecond].
  rewrite Hsecond, Hfirst, (scored_open_jobs_coherent w c c') by exact Hc.
  reflexivity.
Qed.

Lemma projected_student_none (w : collaborators) (student_id : Z) :
  parsed_resumes w !! student_id ≫= rd_parsed_data = None ->
  proj_student w student_id = None.
Proof.
  unfold projected_student.
  destruct (parsed_resumes w !! student_id) as [[[pd|]]|]; cbn; congruence.
Qed.


(** C8: [generate_recommendations] returns the empty list, and does not
    raise, when the candidate has no embedding (no cached vector and no
    parsed data to project), when the candidate has no parsed resume, and
    when there is no open job. *)
Theorem generate_recommendations_empty :
  forall (w : collaborators) (student_id top_n : Z) (min_score : Q) (c : cache),
    (truthy (cached c "student" student_id) = false
     /\ parsed_resumes w !! student_id ≫= rd_parsed_data = None)
    \/ parsed_resumes w !! student_id = None
    \/ open_jobs w = [] ->
    fst (generate_recommendations np_sqrt sha256_digest md5_hexdigest str_float
           w student_id top_n min_score c) = inr [].
Proof.
  intros w student_id top_n min_score c H.
  destruct (generate_recommendations_run w student_id top_n min_score c)
    as [_ ->].
  enough (Hs : scored_open_jobs np_sqrt sha256_digest md5_hexdigest str_float
                 w c student_id = inr []).
  { rewrite Hs. rewrite slice_ranked_nil. reflexivity. }
  unfold scored_open_jobs. rewrite resolve_student_eq.
  destruct H as [[Hc Hp] | [Hd | Ho]].
  - rewrite Hc, (projected_student_none w student_id Hp). reflexivity.
  - rewrite Hd.
    destruct (if truthy _ then _ else _) as [[|x v]|]; reflexivity.
  - rewrite Ho.
    destruct (if truthy _ then _ else _) as [[|x v]|]; try reflexivity.
    destruct (parsed_resumes w !! student_id); reflexivity.
Qed.

Lemma score_all_inv (w : collaborators) (c : cache)
    (se : list Q) (ss : list string) (sx : Q) (l : list job_row)
    (scs : list scored) :
  score_all np_sqrt sha256_digest md5_hexdigest w c se ss sx l = inr scs ->
  forall job, In job l ->
    exists je o,
      res_job w c (job_id job) = inr je
      /\ score_with_embedding np_sqrt w se ss sx job je = inr o
      /\ forall sc, o = Some sc -> In sc scs.
Proof.
  revert scs. induction l as [|j rest IH]; intros scs Hs job Hin; [destruct Hin |].
  cbn [score_all] in Hs.
  destruct (res_job w c (job_id j)) as [e | je] eqn:Hr; [discriminate |].
  destruct (score_with_embedding np_sqrt w se ss sx j je) as [e | o] eqn:Ho;
    [discriminate |].
  destruct (score_all _ _ _ w c se ss sx rest) as [e | scs'] eqn:Hrest;
    [discriminate |].
  injection Hs as <-.
  destruct Hin as [<- | Hin].
  - exists je, o. repeat split; try assumption.
    intros sc ->. apply in_or_app. left. left. reflexivity.
  - destruct (IH scs' eq_refl job Hin) as (je' & o' & Hr' & Ho' & Hsc).
    exists je', o'. repeat split; try assumption.
    intros sc Hsome. apply in_or_app. right. exact (Hsc sc Hsome).
Qed.


Lemma score_with_embedding_job (w : collaborators)
    (se : list Q) (ss : list string) (sx : Q) (job : job_row)
    (je : option (list Q)) (sc : scored) :
  score_with_embedding np_sqrt w se ss sx job je = inr (Some sc) ->
  sc_job sc = job /\ truthy je = true.
Proof.
  unfold score_with_embedding. destruct je as [[|x v]|]; try discriminate.
  destruct (cosine_similarity np_sqrt se (x :: v)); [discriminate |].
  destruct (match parsed_job_descriptions w !! job_id job with
            | Some {| jd_parsed_data := Some job_data |} => _
            | _ => _ end) as [p e].
  intros H. injection H as <-. split; reflexivity.
Qed.




End EngineFacts.

(* ================================================================== *)
(** ** The recommendation table *)
(* ================================================================== *)




Section StoreFacts.

Variable dflt : column_defaults.
Variables utcnow current_timestamp student_id : Z.

Local Abbreviation expires := (utcnow + timedelta_days 7).
Local Abbreviation upsert :=
  (fun (t : ai_recommendations) (rec : recommendation) =>
     upsert_recommendation dflt current_timestamp student_id rec
       (_generate_reason rec) expires t).

Lemma store_recommendations_fold (recs : list recommendation) (t : ai_recommendations) :
  store_recommendations dflt utcnow current_timestamp student_id recs t
  = (fold_left upsert recs t, Z.of_nat (length recs)).
Proof.
  unfold store_recommendations.
  assert (H : forall l t0 n,
             fold_left
               (fun '(t1, stored_count) rec =>
                  (upsert_recommendation dflt current_timestamp student_id rec
                     (_generate_reason rec) expires t1, stored_count + 1))
               l (t0, n)
             = (fold_left upsert l t0, n + Z.of_nat (length l))).
  { induction l as [|r l IH]; intros t0 n; cbn [fold_left length].
    - f_equal. lia.
    - rewrite IH. f_equal. lia. }
  destruct recs as [|r recs]; [reflexivity |]. rewrite H. reflexivity.
Qed.







End StoreFacts.


(** C10: marking a recommendation viewed (applied) returns true exactly when
    a row with that key exists; it sets [is_viewed] ([is_applied]) of that
    row and leaves its other columns, and every other row, as they were; it
    creates no row; and a repeated call returns the same value and changes
    nothing more. *)
Theorem mark_recommendation_frame :
  forall (student_id job_id : Z) (t : ai_recommendations),
    let viewed := mark_recommendation_viewed student_id job_id t in
    let applied := mark_recommendation_applied student_id job_id t in
    (snd viewed = true <-> is_Some (t !! (student_id, job_id)))
    /\ (snd applied = true <-> is_Some (t !! (student_id, job_id)))
    /\ (forall r, t !! (student_id, job_id) = Some r ->
          exists rv ra,
            fst viewed !! (student_id, job_id) = Some rv
            /\ fst applied !! (student_id, job_id) = Some ra
            /\ row_is_viewed rv = true
            /\ row_is_applied rv = row_is_applied r
            /\ row_is_applied ra = true
            /\ row_is_viewed ra = row_is_viewed r
            /\ (forall r', r' = rv \/ r' = ra ->
                  row_match_score r' = row_match_score r
                  /\ row_skill_match_pct r' = row_skill_match_pct r
                  /\ row_experience_match r' = row_experience_match r
                  /\ row_recommendation_reason r' = row_recommendation_reason r
                  /\ row_created_at r' = row_created_at r
                  /\ row_expires_at r' = row_expires_at r))
    /\ (forall k, k <> (student_id, job_id) ->
          fst viewed !! k = t !! k /\ fst applied !! k = t !! k)
    /\ (t !! (student_id, job_id) = None -> fst viewed = t /\ fst applied = t)
    /\ mark_recommendation_viewed student_id job_id (fst viewed) = viewed
    /\ mark_recommendation_applied student_id job_id (fst applied) = applied.
Proof.
  intros student_id job_id t viewed applied. subst viewed applied.
  unfold mark_recommendation_viewed, mark_recommendation_applied, update_where.
  cbn [fst snd].
  split; [| split].
  - destruct (t !! (student_id, job_id)); cbn; split;
      intros H; try reflexivity; try discriminate; eauto.
    destruct H as [? [=]].
  - destruct (t !! (student_id, job_id)); cbn; split;
      intros H; try reflexivity; try discriminate; eauto.
    destruct H as [? [=]].
  - split.
    { intros r Hr. exists (set_viewed r), (set_applied r).
      rewrite !lookup_alter_eq, Hr. cbn.
      repeat (split; [reflexivity |]).
      intros r' [-> | ->]; repeat split. }
    split.
    { intros k Hk. rewrite !lookup_alter_ne by congruence. split; reflexivity. }
    split.
    { intros Hn. split; apply map_eq; intros k;
        (destruct (decide (k = (student_id, job_id))) as [-> | Hne];
         [rewrite lookup_alter_eq, Hn; reflexivity
         | rewrite lookup_alter_ne by congruence; reflexivity]). }
    rewrite !lookup_alter_eq.
    destruct (t !! (student_id, job_id)) as [r|]; cbn [fmap option_fmap option_map];
      split; f_equal; apply map_eq; intros k;
      (destruct (decide (k = (student_id, job_id))) as [-> | Hne];
       [rewrite !lookup_alter_eq; destruct (t !! (student_id, job_id)); reflexivity
       | rewrite !lookup_alter_ne by congruence; reflexivity]).
Qed.

(* ================================================================== *)
(** ** Runs on the sample data *)
(* ================================================================== *)



(** The statement of C8 on the sample data: candidate 2 has neither a
    cached vector nor a parsed resume. *)
Lemma generate_recommendations_empty_witness :
  fst (generate_recommendations sqrt_on_squares sample_digest sample_hexdigest
         sample_str_float sample_world 2 10 (3 # 10) sample_cache) = inr [].
Proof.
  apply generate_recommendations_empty. left. vm_compute. split; reflexivity.
Defined.

(* ================================================================== *)
(** ** More on the similarity kernel *)
(* ================================================================== *)

Lemma np_dot_comm (a b : list Q) : (np_dot a b == np_dot b a)%Q.
Proof.
  revert b. induction a as [|x a IH]; intros [|y b]; cbn [np_dot]; try reflexivity.
  rewrite IH. ring.
Qed.











Section CosineMore.

Variable np_sqrt : Q -> Q.

Local Abbreviation norm := (np_linalg_norm np_sqrt).
Local Abbreviation cosine := (cosine_similarity np_sqrt).



(** The two arguments can be exchanged: the call fails for the one order
    exactly when it fails for the other, and the two results are equal. *)
Theorem cosine_similarity_symmetric :
  forall a b : list Q,
    (forall e, cosine_similarity np_sqrt a b = inl e
               <-> cosine_similarity np_sqrt b a = inl e)
    /\ (forall s s',
          cosine_similarity np_sqrt a b = inr s ->
          cosine_similarity np_sqrt b a = inr s' -> (s == s')%Q).
Proof.
  intros a b. unfold cosine_similarity.
  rewrite (Nat.eqb_sym (length b) (length a)).
  destruct (length a =? length b)%nat; cbn [negb]; [| split; [tauto | discriminate]].
  rewrite (orb_comm (Qeq_bool (norm b) 0)).
  destruct (Qeq_bool (norm a) 0 || Qeq_bool (norm b) 0).
  - split; [intros e; split; discriminate |]. intros s s' [= <-] [= <-]. reflexivity.
  - split; [intros e; split; discriminate |]. intros s s' [= <-] [= <-].
    rewrite (np_dot_comm b a), (Qmult_comm (norm b)). reflexivity.
Qed.

Lemma cosine_similarity_returns (a b : list Q) :
  length a = length b -> exists s, cosine a b = inr s.
Proof.
  intros Hlen. unfold cosine_similarity. rewrite Hlen, Nat.eqb_refl. cbn [negb].
  destruct (Qeq_bool (norm a) 0 || Qeq_bool (norm b) 0); eauto.
Qed.


End CosineMore.



(* ================================================================== *)
(** ** More on the skill match and the combined score *)
(* ================================================================== *)

Lemma skill_match_ratio (x : string) (l student_skills : list string) :
  let S : gset string := list_to_set (Py.lower <$> student_skills) in
  let R : gset string := list_to_set (Py.lower <$> (x :: l)) in
  compute_skill_match_percentage student_skills (x :: l)
  = (inject_Z (Z.of_nat (size (S ∩ R))) / inject_Z (Z.of_nat (size R)) * 100)%Q.
Proof. reflexivity. Qed.

Lemma inject_nat_nonzero (n : nat) :
  (0 < n)%nat -> ~ (inject_Z (Z.of_nat n) == 0)%Q.
Proof.
  intros Hn Hz. pose proof (inject_nat_pos n Hn) as Hp.
  rewrite Hz in Hp. exact (Qlt_irrefl _ Hp).
Qed.

Lemma ratio_full (k n : nat) :
  (0 < n)%nat -> (k <= n)%nat ->
  ((inject_Z (Z.of_nat k) / inject_Z (Z.of_nat n) * 100 == 100)%Q <-> k = n).
Proof.
  intros Hn Hk. pose proof (inject_nat_pos n Hn) as Hp.
  split.
  - intros He.
    assert (H : (inject_Z (Z.of_nat k) == inject_Z (Z.of_nat n))%Q).
    { assert (Hd : (inject_Z (Z.of_nat k) / inject_Z (Z.of_nat n) == 1)%Q)
        by (revert He; generalize (inject_Z (Z.of_nat k) / inject_Z (Z.of_nat n))%Q;
            clear; intros q He; lra).
      rewrite <- (Qmult_1_l (inject_Z (Z.of_nat n))), <- Hd. field.
      apply inject_nat_nonzero, Hn. }
    apply (proj1 (inject_Z_injective _ _)) in H. apply Nat2Z.inj, H.
  - intros ->. field. apply inject_nat_nonzero, Hn.
Qed.

Lemma ratio_zero (k n : nat) :
  (0 < n)%nat ->
  ((inject_Z (Z.of_nat k) / inject_Z (Z.of_nat n) * 100 == 0)%Q <-> k = 0%nat).
Proof.
  intros Hn. pose proof (inject_nat_pos n Hn) as Hp.
  split.
  - intros He.
    assert (H : (inject_Z (Z.of_nat k) == inject_Z 0)%Q).
    { assert (Hd : (inject_Z (Z.of_nat k) / inject_Z (Z.of_nat n) == 0)%Q)
        by (revert He; generalize (inject_Z (Z.of_nat k) / inject_Z (Z.of_nat n))%Q;
            clear; intros q He; lra).
      setoid_replace (inject_Z (Z.of_nat k))
        with (inject_Z (Z.of_nat k) / inject_Z (Z.of_nat n)
              * inject_Z (Z.of_nat n))%Q using relation Qeq
        by (field; apply inject_nat_nonzero, Hn).
      rewrite Hd. ring. }
    apply (proj1 (inject_Z_injective _ _)) in H. apply Nat2Z.inj, H.
  - intros ->. unfold Qdiv. ring.
Qed.

Lemma ratio_mono (k k' n : nat) :
  (0 < n)%nat -> (k <= k')%nat ->
  (inject_Z (Z.of_nat k) / inject_Z (Z.of_nat n) * 100
   <= inject_Z (Z.of_nat k') / inject_Z (Z.of_nat n) * 100)%Q.
Proof.
  intros Hn Hk. pose proof (inject_nat_pos n Hn) as Hp.
  pose proof (inject_nat_le k k' Hk) as Hle.
  apply Qmult_le_compat_r; [| discriminate].
  unfold Qdiv. apply Qmult_le_compat_r; [exact Hle |].
  apply Qlt_le_weak, Qinv_lt_0_compat. exact Hp.
Qed.

(** The score is 100 exactly when every required skill is, up to case,
    among the student's; for a non-empty requirement list it is 0 exactly
    when none is. *)
Theorem skill_match_extremes :
  forall student_skills required_skills : list string,
    let S : gset string := list_to_set (Py.lower <$> student_skills) in
    let R : gset string := list_to_set (Py.lower <$> required_skills) in
    let result := compute_skill_match_percentage student_skills required_skills in
    ((result == 100)%Q <-> R ⊆ S)
    /\ (required_skills <> [] -> ((result == 0)%Q <-> S ∩ R = ∅)).
Proof.
  intros student_skills required_skills S R result.
  destruct required_skills as [|x l].
  - split; [| congruence]. subst result R. cbn. split; [set_solver | reflexivity].
  - subst result. rewrite skill_match_ratio. fold S R.
    pose proof (lowered_set_size_pos x l) as Hpos. fold R in Hpos.
    assert (Hle : (size (S ∩ R) <= size R)%nat)
      by apply subseteq_size, intersection_subseteq_r.
    split.
    + rewrite (ratio_full _ _ Hpos Hle). split.
      * intros Hs.
        assert (Heq : S ∩ R ≡ R).
        { apply set_subseteq_size_equiv; [apply intersection_subseteq_r | lia]. }
        intros y Hy. apply Heq in Hy. apply elem_of_intersection in Hy as [Hy _].
        exact Hy.
      * intros Hsub. f_equal. apply leibniz_equiv. intros y.
        rewrite elem_of_intersection. split; [tauto | auto].
    + intros _. rewrite (ratio_zero _ _ Hpos). split.
      * intros Hz. apply leibniz_equiv, size_empty_iff. exact Hz.
      * intros ->. apply size_empty.
Qed.

(** Adding skills to the student's list never lowers the score. *)
Theorem skill_match_monotone :
  forall student_skills student_skills' required_skills : list string,
    student_skills ⊆ student_skills' ->
    (compute_skill_match_percentage student_skills required_skills
     <= compute_skill_match_percentage student_skills' required_skills)%Q.
Proof.
  intros s s' [|x l] Hsub; [cbn; lra |].
  rewrite !skill_match_ratio.
  apply ratio_mono; [apply lowered_set_size_pos |].
  apply subseteq_size.
  assert (Hin : forall y, y ∈ Py.lower <$> s -> y ∈ Py.lower <$> s').
  { intros y Hy. apply list_elem_of_fmap in Hy as (z & -> & Hz).
    apply list_elem_of_fmap. exists z. split; [reflexivity | apply Hsub, Hz]. }
  intros y. rewrite !elem_of_intersection, !elem_of_list_to_set.
  intros [Hy Hr]. split; [apply Hin, Hy | exact Hr].
Qed.

Lemma skill_match_monotone_witness :
  (compute_skill_match_percentage ["Python"]%string ["python"; "sql"]%string
   <= compute_skill_match_percentage ["SQL"; "Python"]%string
        ["python"; "sql"]%string)%Q.
Proof.
  apply skill_match_monotone. intros x Hx.
  apply list_elem_of_In in Hx. apply list_elem_of_In.
  destruct Hx as [<- | []]. right. left. reflexivity.
Defined.



(* ================================================================== *)
(** ** The hash-based embedding *)
(* ================================================================== *)

Lemma lower_char_idem (c : ascii) : Py.lower_char (Py.lower_char c) = Py.lower_char c.
Proof. destruct c as [[] [] [] [] [] [] [] []]; reflexivity. Qed.

Lemma lower_idem (s : string) : Py.lower (Py.lower s) = Py.lower s.
Proof.
  induction s as [|c s IH]; [reflexivity |].
  cbn [Py.lower]. rewrite lower_char_idem, IH. reflexivity.
Qed.

Lemma lower_char_space (c : ascii) : Py.is_space (Py.lower_char c) = Py.is_space c.
Proof. destruct c as [[] [] [] [] [] [] [] []]; reflexivity. Qed.

Lemma blank_lower (s : string) : blank (Py.lower s) = blank s.
Proof.
  induction s as [|c s IH]; [reflexivity |].
  cbn [Py.lower blank]. rewrite lower_char_space, IH. reflexivity.
Qed.

Lemma lstrip_blank (s : string) : blank s = true -> Py.lstrip s = EmptyString.
Proof.
  induction s as [|c s IH]; [reflexivity |]. cbn [blank Py.lstrip].
  intros H. apply andb_true_iff in H as [Hc Hs]. rewrite Hc. exact (IH Hs).
Qed.

Lemma split_blank (s : string) : blank s = true -> Py.split (Py.strip s) = [].
Proof. intros H. unfold Py.strip. rewrite (lstrip_blank s H). reflexivity. Qed.

Section EmbeddingFacts.

Variable np_sqrt : Q -> Q.
Variable sha256_digest : string -> list Z.

Local Abbreviation gen := (_generate_simple_embedding np_sqrt sha256_digest).

Lemma fold_left_length {A B} (f : list B -> A -> list B) (l : list A) (e : list B) :
  (forall e x, length (f e x) = length e) ->
  length (fold_left f l e) = length e.
Proof.
  intros Hf. revert e. induction l as [|x l IH]; intros e; cbn [fold_left];
    [reflexivity |]. rewrite IH. apply Hf.
Qed.

Lemma simple_embedding_length (text : string) : length (gen text) = 256%nat.
Proof.
  unfold _generate_simple_embedding.
  match goal with
  | |- context [np_sqrt (sum_squares ?e)] => set (emb := e)
  end.
  assert (Hlen : length emb = 256%nat).
  { subst emb. rewrite fold_left_length; [apply length_replicate |].
    intros e [i word]. apply fold_left_length.
    intros e' j. apply length_alter. }
  destruct (Qlt_le_dec 0 (np_sqrt (sum_squares emb)));
    [rewrite length_fmap |]; exact Hlen.
Qed.

(** Every vector the generator returns has [embedding_dim] = 256 entries,
    whatever the text, the digests and the square root; so the comparison
    of two generated vectors never raises the dimension error. *)
Theorem generate_simple_embedding_length :
  forall text text' : string,
    length (gen text) = 256%nat
    /\ exists s, cosine_similarity np_sqrt (gen text) (gen text') = inr s.
Proof.
  intros text text'. split; [apply simple_embedding_length |].
  apply cosine_similarity_returns.
  rewrite !simple_embedding_length. reflexivity.
Qed.

(** The generator ignores letter case. *)
Theorem generate_simple_embedding_case_insensitive :
  forall text : string, gen (Py.lower text) = gen text.
Proof.
  intros text. unfold _generate_simple_embedding. rewrite lower_idem. reflexivity.
Qed.

(** A text without a word (empty, or white space only) gives the null
    vector: 256 entries, all zero. *)
Theorem generate_simple_embedding_blank :
  forall text : string,
    blank text = true ->
    length (gen text) = 256%nat /\ Forall (fun x => (x == 0)%Q) (gen text).
Proof.
  intros text Hb. split; [apply simple_embedding_length |].
  unfold _generate_simple_embedding.
  rewrite split_blank by (rewrite blank_lower; exact Hb).
  cbn [imap fold_left].
  assert (Hz : Forall (fun x => (x == 0)%Q) (replicate embedding_dim 0%Q)).
  { apply Forall_replicate. reflexivity. }
  destruct (Qlt_le_dec 0 _); [| exact Hz].
  apply Forall_fmap. eapply Forall_impl; [exact Hz |].
  intros x Hx. cbn. rewrite Hx. unfold Qdiv. ring.
Qed.

End EmbeddingFacts.

Lemma generate_simple_embedding_blank_witness :
  length (_generate_simple_embedding sqrt_on_squares sample_digest "  ") = 256%nat
  /\ Forall (fun x => (x == 0)%Q)
       (_generate_simple_embedding sqrt_on_squares sample_digest "  ").
Proof. apply generate_simple_embedding_blank. reflexivity. Defined.

(* ================================================================== *)
(** ** The embedding cache service *)
(* ================================================================== *)

(** Round trip of the cache: a stored vector is the one read back, a second
    store under the key replaces it, other keys are not affected, and after
    a delete (which reports that a document was removed) the key reads as
    absent; deleting an absent key reports false and changes nothing. *)
Theorem embedding_cache_round_trip :
  forall (entity_type : string) (entity_id : Z) (embedding embedding' : list Q)
         (text_hash text_hash' : string) (c : cache),
    let c1 := snd (store_embedding entity_type entity_id embedding text_hash c) in
    let c2 := snd (store_embedding entity_type entity_id embedding' text_hash' c1) in
    fst (get_embedding entity_type entity_id c1) = inr (Some embedding)
    /\ snd (get_embedding entity_type entity_id c1) = c1
    /\ fst (get_embedding entity_type entity_id c2) = inr (Some embedding')
    /\ (forall et id, (et, id) <> (entity_type, entity_id) ->
          fst (get_embedding et id c1) = fst (get_embedding et id c))
    /\ fst (delete_embedding entity_type entity_id c1) = inr true
    /\ fst (get_embedding entity_type entity_id
              (snd (delete_embedding entity_type entity_id c1))) = inr None
    /\ (c !! (entity_type, entity_id) = None ->
        delete_embedding entity_type entity_id c = (inr false, c)
        /\ snd (delete_embedding entity_type entity_id c1) = c).
Proof.
  intros entity_type entity_id embedding embedding' text_hash text_hash' c c1 c2.
  subst c1 c2. unfold store_embedding, get_embedding, delete_embedding.
  cbn [fst snd].
  rewrite !lookup_insert_eq, lookup_delete_eq. cbn.
  do 3 (split; [reflexivity |]).
  split.
  { intros et id Hne. rewrite lookup_insert_ne by congruence. reflexivity. }
  do 2 (split; [reflexivity |]).
  intros Hnone. rewrite Hnone. split.
  - rewrite delete_id by exact Hnone. reflexivity.
  - apply delete_insert_id. exact Hnone.
Qed.

Lemma list_filter_sublist {A} (f : A -> bool) (l : list A) :
  List.filter f l `sublist_of` l.
Proof.
  induction l as [|x l IH]; cbn [List.filter]; [constructor |].
  destruct (f x); [apply sublist_skip | apply sublist_cons]; exact IH.
Qed.

Lemma job_entry_in (c : cache) (id : Z) (v : list Q) :
  In (id, v)
     ((fun kv : string * Z * cache_doc => (snd (fst kv), cd_embedding (snd kv)))
        <$> List.filter
              (fun kv : string * Z * cache_doc => String.eqb (fst (fst kv)) "job")
              (map_to_list c))
  <-> exists doc, c !! ("job"%string, id) = Some doc /\ cd_embedding doc = v.
Proof.
  rewrite <- list_elem_of_In, list_elem_of_fmap. split.
  - intros ([[et id'] doc] & Heq & Hin). cbn in Heq. injection Heq as -> ->.
    apply list_elem_of_In, List.filter_In in Hin as [Hin Het].
    cbn in Het. apply String.eqb_eq in Het. subst et.
    apply list_elem_of_In, elem_of_map_to_list in Hin. eauto.
  - intros (doc & Hdoc & <-). exists ("job"%string, id, doc). split; [reflexivity |].
    apply list_elem_of_In, List.filter_In. split; [| reflexivity].
    apply list_elem_of_In, elem_of_map_to_list. exact Hdoc.
Qed.

(** [get_all_job_embeddings] lists exactly the cached job vectors, each job
    once, and no student vector; it leaves the cache as it is. *)
Theorem get_all_job_embeddings_spec :
  forall c : cache,
    exists l,
      get_all_job_embeddings c = (inr l, c)
      /\ (forall id v,
            In (id, v) l
            <-> exists doc, c !! ("job"%string, id) = Some doc
                            /\ cd_embedding doc = v)
      /\ NoDup (fst <$> l)
      /\ (forall id v,
            c !! ("job"%string, id) = None -> ~ In (id, v) l).
Proof.
  intros c. eexists. split; [reflexivity |].
  split; [intros id v; apply job_entry_in |].
  split.
  - rewrite <- list_fmap_compose. apply NoDup_fmap_2_strong.
    + intros [[et1 id1] d1] [[et2 id2] d2] H1 H2 Hid. cbn in Hid. subst id2.
      apply list_elem_of_In, List.filter_In in H1 as [H1 E1].
      apply list_elem_of_In, List.filter_In in H2 as [H2 E2].
      cbn in E1, E2. apply String.eqb_eq in E1, E2. subst et1 et2.
      apply list_elem_of_In, elem_of_map_to_list in H1, H2. congruence.
    + eapply sublist_NoDup; [apply NoDup_map_to_list |].
      apply list_filter_sublist.
  - intros id v Hnone Hin. apply job_entry_in in Hin as (doc & Hdoc & _).
    congruence.
Qed.

Section GetEmbeddingFacts.

Variable np_sqrt : Q -> Q.
Variable sha256_digest : string -> list Z.
Variable md5_hexdigest : string -> string.
Variable str_float : Q -> string.

Local Abbreviation gen := (_generate_simple_embedding np_sqrt sha256_digest).
Local Abbreviation get_student :=
  (get_student_embedding np_sqrt sha256_digest md5_hexdigest str_float).
Local Abbreviation get_job := (get_job_embedding np_sqrt sha256_digest md5_hexdigest).

Lemma simple_embedding_truthy (text : string) : truthy (Some (gen text)) = true.
Proof.
  pose proof (simple_embedding_length np_sqrt sha256_digest text) as Hlen.
  destruct (gen text); [discriminate | reflexivity].
Qed.

Ltac run_get :=
  unfold get_student_embedding, get_job_embedding, bind, get_embedding, ret,
    store_embedding, cached.

(** A cached vector that is not empty is returned as it is, without a look
    at the parsed document and without a write: a stale vector stays in
    use until a regeneration is forced. *)
Theorem cached_embedding_is_used :
  forall (w : collaborators) (id : Z) (c : cache) (v : list Q),
    v <> [] ->
    (cached c "student" id = Some v ->
     get_student w id false c = (inr (Some v), c))
    /\ (cached c "job" id = Some v ->
        get_job w id false c = (inr (Some v), c)).
Proof.
  intros w id c v Hv. destruct v as [|x v]; [congruence |].
  split; intros Hc; run_get; unfold cached in Hc; rewrite Hc; reflexivity.
Qed.

(** On a miss the vector projected from the parsed document is returned and
    stored with the hash of its feature text; the next call returns the
    same vector from the cache and writes nothing.  Without parsed data the
    result is [None] and the cache is not touched. *)
Theorem embedding_miss_is_written_through :
  forall (w : collaborators) (id : Z) (c : cache),
    (truthy (cached c "student" id) = false ->
     match parsed_resumes w !! id ≫= rd_parsed_data with
     | Some parsed_data =>
         let text := _text_to_features_student str_float parsed_data in
         let c' := <[("student"%string, id) :=
                       {| cd_embedding := gen text;
                          cd_text_hash := md5_hexdigest text |}]> c in
         get_student w id false c = (inr (Some (gen text)), c')
         /\ get_student w id false c' = (inr (Some (gen text)), c')
     | None => get_student w id false c = (inr None, c)
     end)
    /\ (truthy (cached c "job" id) = false ->
        match parsed_job_descriptions w !! id ≫= jd_parsed_data with
        | Some parsed_data =>
            let text := _text_to_features_job parsed_data in
            let c' := <[("job"%string, id) :=
                          {| cd_embedding := gen text;
                             cd_text_hash := md5_hexdigest text |}]> c in
            get_job w id false c = (inr (Some (gen text)), c')
            /\ get_job w id false c' = (inr (Some (gen text)), c')
        | None => get_job w id false c = (inr None, c)
        end).
Proof.
  intros w id c. split; intros Hc; unfold cached in Hc.
  - destruct (parsed_resumes w !! id) as [[[pd|]]|] eqn:Hdoc; cbn.
    + split; run_get; rewrite ?lookup_insert_eq; cbn [fmap option_fmap option_map cd_embedding].
      * rewrite Hc, Hdoc. reflexivity.
      * rewrite simple_embedding_truthy. reflexivity.
    + run_get. rewrite Hc, Hdoc. reflexivity.
    + run_get. rewrite Hc, Hdoc. reflexivity.
  - destruct (parsed_job_descriptions w !! id) as [[[pd|]]|] eqn:Hdoc; cbn.
    + split; run_get; rewrite ?lookup_insert_eq; cbn [fmap option_fmap option_map cd_embedding].
      * rewrite Hc, Hdoc. reflexivity.
      * rewrite simple_embedding_truthy. reflexivity.
    + run_get. rewrite Hc, Hdoc. reflexivity.
    + run_get. rewrite Hc, Hdoc. reflexivity.
Qed.

(** A forced regeneration ignores the cache: with parsed data it replaces
    whatever was cached by the fresh projection; without parsed data it
    returns [None] and leaves the cache, a cached vector included, as it
    was. *)
Theorem forced_regeneration :
  forall (w : collaborators) (id : Z) (c : cache),
    match parsed_resumes w !! id ≫= rd_parsed_data with
    | Some parsed_data =>
        let text := _text_to_features_student str_float parsed_data in
        get_student w id true c
        = (inr (Some (gen text)),
           <[("student"%string, id) :=
               {| cd_embedding := gen text;
                  cd_text_hash := md5_hexdigest text |}]> c)
    | None => get_student w id true c = (inr None, c)
    end
    /\ match parsed_job_descriptions w !! id ≫= jd_parsed_data with
       | Some parsed_data =>
           let text := _text_to_features_job parsed_data in
           get_job w id true c
           = (inr (Some (gen text)),
              <[("job"%string, id) :=
                  {| cd_embedding := gen text;
                     cd_text_hash := md5_hexdigest text |}]> c)
       | None => get_job w id true c = (inr None, c)
       end.
Proof.
  intros w id c. split.
  - destruct (parsed_resumes w !! id) as [[[pd|]]|] eqn:Hdoc; cbn;
      run_get; cbn [truthy]; rewrite Hdoc; reflexivity.
  - destruct (parsed_job_descriptions w !! id) as [[[pd|]]|] eqn:Hdoc; cbn;
      run_get; cbn [truthy]; rewrite Hdoc; reflexivity.
Qed.

End GetEmbeddingFacts.

Lemma cached_embedding_is_used_witness :
  get_student_embedding sqrt_on_squares sample_digest sample_hexdigest
    sample_str_float sample_world 1 false sample_cache
  = (inr (Some [inject_Z 1; inject_Z 0]), sample_cache).
Proof.
  apply (cached_embedding_is_used sqrt_on_squares sample_digest sample_hexdigest
           sample_str_float sample_world 1 sample_cache [inject_Z 1; inject_Z 0]);
    [discriminate | vm_compute; reflexivity].
Defined.

Lemma embedding_miss_is_written_through_witness :
  get_student_embedding sqrt_on_squares sample_digest sample_hexdigest
    sample_str_float sample_world 2 false sample_cache
  = (inr None, sample_cache).
Proof.
  destruct (embedding_miss_is_written_through sqrt_on_squares sample_digest
              sample_hexdigest sample_str_float sample_world 2 sample_cache)
    as [H _].
  apply H. vm_compute. reflexivity.
Defined.

(* ================================================================== *)
(** ** More on the generation of recommendations *)
(* ================================================================== *)

Lemma slice_to_sublist {A} (l : list A) (n : Z) : Py.slice_to l n `sublist_of` l.
Proof. unfold Py.slice_to. destruct (n <? 0); apply sublist_take. Qed.

Lemma round_half_even_mono (y y' : Q) :
  (y <= y')%Q -> Py.round_half_even y <= Py.round_half_even y'.
Proof.
  intros Hle. unfold Py.round_half_even.
  pose proof (Qfloor_resp_le y y' Hle) as Hf.
  pose proof (Qfloor_le y) as Hlo. pose proof (Qlt_floor y) as Hhi.
  pose proof (Qfloor_le y') as Hlo'. pose proof (Qlt_floor y') as Hhi'.
  rewrite inject_Z_plus in Hhi, Hhi'.
  change (inject_Z 1) with 1%Q in Hhi, Hhi'.
  set (f := Qfloor y) in *. set (f' := Qfloor y') in *.
  destruct (Z.eq_dec f f') as [<- | Hne].
  - destruct (Qcompare_spec (y - inject_Z f) (1 # 2)) as [He | Hl | Hg];
      destruct (Qcompare_spec (y' - inject_Z f) (1 # 2)) as [He' | Hl' | Hg'];
      try lia; try (exfalso; lra); destruct (Z.even f); lia.
  - assert (Hlt : f + 1 <= f') by lia.
    destruct (Qcompare_spec (y - inject_Z f) (1 # 2));
      destruct (Qcompare_spec (y' - inject_Z f') (1 # 2));
      repeat (destruct (Z.even _)); lia.
Qed.

Lemma round_mono (x x' : Q) (n : nat) :
  (x <= x')%Q -> (Py.round x n <= Py.round x' n)%Q.
Proof.
  intros Hle. unfold Py.round. rewrite !Qred_correct.
  pose proof (pow10_pos n) as Hp. set (p := inject_Z (10 ^ Z.of_nat n)) in *.
  unfold Qdiv. apply Qmult_le_compat_r.
  - rewrite <- Zle_Qle. apply round_half_even_mono.
    apply Qmult_le_compat_r; [exact Hle | lra].
  - apply Qlt_le_weak, Qinv_lt_0_compat. exact Hp.
Qed.

Lemma cache_extended_refl (allowed : string * Z -> Prop) (c : cache) :
  cache_extended allowed c c.
Proof. intros k. left. reflexivity. Qed.

Lemma cache_extended_trans (allowed : string * Z -> Prop) (c1 c2 c3 : cache) :
  cache_extended allowed c1 c2 -> cache_extended allowed c2 c3 ->
  cache_extended allowed c1 c3.
Proof.
  intros H12 H23 k. destruct (H23 k) as [E23 | (T2 & Hal & doc & Hdoc & Hlen)].
  - rewrite E23. apply H12.
  - right. destruct (H12 k) as [E12 | (T1 & _ & _)].
    + rewrite <- E12. eauto.
    + eauto.
Qed.

Lemma cache_extended_weaken (allowed allowed' : string * Z -> Prop) (c c' : cache) :
  (forall k, allowed k -> allowed' k) ->
  cache_extended allowed c c' -> cache_extended allowed' c c'.
Proof.
  intros Hal H k. destruct (H k) as [E | (T & Ha & Hd)]; [left; exact E |].
  right. auto.
Qed.

Section GenerateMore.

Variable np_sqrt : Q -> Q.
Variable sha256_digest : string -> list Z.
Variable md5_hexdigest : string -> string.
Variable str_float : Q -> string.

Local Abbreviation gen := (_generate_simple_embedding np_sqrt sha256_digest).
Local Abbreviation get_student :=
  (get_student_embedding np_sqrt sha256_digest md5_hexdigest str_float).
Local Abbreviation get_job := (get_job_embedding np_sqrt sha256_digest md5_hexdigest).
Local Abbreviation res_student :=
  (resolve_student np_sqrt sha256_digest md5_hexdigest str_float).
Local Abbreviation res_job := (resolve_job np_sqrt sha256_digest md5_hexdigest).
Local Abbreviation scored_jobs :=
  (scored_open_jobs np_sqrt sha256_digest md5_hexdigest str_float).
Local Abbreviation generate :=
  (generate_recommendations np_sqrt sha256_digest md5_hexdigest str_float).
Local Abbreviation dimension_error :=
  (Py.ValueError "Vectors must have same dimension").

Lemma generate_result (w : collaborators) (student_id top_n : Z) (min_score : Q)
    (c : cache) :
  fst (generate w student_id top_n min_score c)
  = match scored_jobs w c student_id with
    | inl e => inl e
    | inr scs => inr (Py.slice_to (ranked min_score scs) top_n)
    end.
Proof.
  exact (proj2 (generate_recommendations_run np_sqrt sha256_digest md5_hexdigest
                  str_float w student_id top_n min_score c)).
Qed.

Lemma score_all_sublist (w : collaborators) (c : cache)
    (se : list Q) (ss : list string) (sx : Q) (l : list job_row)
    (scs : list scored) :
  score_all np_sqrt sha256_digest md5_hexdigest w c se ss sx l = inr scs ->
  (sc_job <$> scs) `sublist_of` l.
Proof.
  revert scs. induction l as [|j rest IH]; intros scs Hs; cbn [score_all] in Hs.
  - injection Hs as <-. constructor.
  - destruct (res_job w c (job_id j)) as [e | je]; [discriminate |].
    destruct (score_with_embedding np_sqrt w se ss sx j je) as [e | o] eqn:Ho;
      [discriminate |].
    destruct (score_all _ _ _ w c se ss sx rest) as [e | scs']; [discriminate |].
    injection Hs as <-. specialize (IH scs' eq_refl).
    destruct o as [sc |]; cbn [option_to_list app fmap list_fmap].
    + destruct (score_with_embedding_job np_sqrt _ _ _ _ _ _ _ Ho) as [-> _].
      apply sublist_skip. exact IH.
    + apply sublist_cons. exact IH.
Qed.

Lemma scored_jobs_sublist (w : collaborators) (c : cache) (student_id : Z)
    (scs : list scored) :
  scored_jobs w c student_id = inr scs ->
  (sc_job <$> scs) `sublist_of` open_jobs w.
Proof.
  unfold scored_open_jobs.
  destruct (res_student w c student_id) as [e | [[|x v]|]];
    try discriminate; try (intros [= <-]; apply sublist_nil_l).
  destruct (parsed_resumes w !! student_id);
    [apply score_all_sublist | intros [= <-]; apply sublist_nil_l].
Qed.

Lemma in_ranked_inv (min_score : Q) (scs : list scored) (r : recommendation) :
  In r (ranked min_score scs) ->
  exists sc, In sc scs /\ (min_score <= sc_combined_score sc)%Q /\ r = entry sc.
Proof.
  unfold ranked. intros Hin.
  apply (Permutation_in _ (sort_reverse_perm rec_match_score _)) in Hin.
  apply list_elem_of_In, list_elem_of_fmap in Hin as (sc & -> & Hsc).
  apply list_elem_of_In, List.filter_In in Hsc as [Hsc Hle].
  apply Qle_bool_iff in Hle. eauto.
Qed.

Lemma ranked_job_ids (min_score : Q) (scs : list scored) :
  exists l, Permutation (rec_job_id <$> ranked min_score scs) l
            /\ l `sublist_of` (job_id <$> (sc_job <$> scs)).
Proof.
  exists (job_id <$> (sc_job <$>
            List.filter (fun sc => Qle_bool min_score (sc_combined_score sc)) scs)).
  split.
  - unfold ranked. rewrite (sort_reverse_perm rec_match_score).
    rewrite <- !list_fmap_compose. reflexivity.
  - do 2 apply fmap_sublist. apply list_filter_sublist.
Qed.

(** Only open jobs are recommended: every entry carries the id and title of
    a job of the table whose status is "open"; there are no more entries
    than open jobs; and when the open jobs have distinct ids no job is
    recommended twice. *)
Theorem generate_recommendations_open_jobs_only :
  forall (w : collaborators) (student_id top_n : Z) (min_score : Q) (c : cache)
         (out : list recommendation),
    fst (generate w student_id top_n min_score c) = inr out ->
    (forall r, In r out ->
       exists j, In j (jobs w) /\ status j = "open"%string
                 /\ rec_job_id r = job_id j /\ rec_job_title r = title j)
    /\ (length out <= length (open_jobs w))%nat
    /\ (NoDup (job_id <$> open_jobs w) -> NoDup (rec_job_id <$> out)).
Proof.
  intros w student_id top_n min_score c out Hout. rewrite generate_result in Hout.
  destruct (scored_jobs w c student_id) as [e | scs] eqn:Hscs; [discriminate |].
  injection Hout as <-. pose proof (scored_jobs_sublist w c student_id scs Hscs) as Hsub.
  pose proof (slice_to_sublist (ranked min_score scs) top_n) as Hslice.
  split; [| split].
  - intros r Hr. apply list_elem_of_In in Hr.
    apply (elem_of_sublist _ _ _ Hr) in Hslice.
    apply list_elem_of_In, in_ranked_inv in Hslice as (sc & Hsc & _ & ->).
    assert (Hj : sc_job sc ∈ open_jobs w).
    { eapply elem_of_sublist; [| exact Hsub].
      apply list_elem_of_fmap. exists sc. split; [reflexivity |].
      apply list_elem_of_In. exact Hsc. }
    unfold open_jobs in Hj. apply list_elem_of_filter in Hj as [Hopen Hj].
    exists (sc_job sc). apply list_elem_of_In in Hj. auto.
  - apply sublist_length in Hslice, Hsub. rewrite length_fmap in Hsub.
    unfold ranked in Hslice |- *.
    rewrite (Permutation_length (sort_reverse_perm rec_match_score _)),
      length_fmap in Hslice.
    pose proof (sublist_length _ _
                  (list_filter_sublist
                     (fun sc => Qle_bool min_score (sc_combined_score sc)) scs)).
    lia.
  - intros Hnd. destruct (ranked_job_ids min_score scs) as (l & Hperm & Hl).
    eapply sublist_NoDup; [| apply fmap_sublist; exact Hslice].
    rewrite Hperm. eapply sublist_NoDup; [| exact Hl].
    eapply sublist_NoDup; [exact Hnd |]. apply fmap_sublist. exact Hsub.
Qed.

(** Returned scores respect the threshold: [match_score] is the rounding
    of a combined score of at least [min_score], so it is at least
    [min_score - 0.00005], and at least [min_score] itself when
    [min_score] has no more than four decimal places. *)
Theorem generate_recommendations_threshold :
  forall (w : collaborators) (student_id top_n : Z) (min_score : Q) (c : cache)
         (out : list recommendation),
    fst (generate w student_id top_n min_score c) = inr out ->
    forall r, In r out ->
      (min_score - (1 # 20000) <= rec_match_score r)%Q
      /\ ((Py.round min_score 4 == min_score)%Q ->
          (min_score <= rec_match_score r)%Q).
Proof.
  intros w student_id top_n min_score c out Hout r Hr.
  rewrite generate_result in Hout.
  destruct (scored_jobs w c student_id) as [e | scs]; [discriminate |].
  injection Hout as <-. apply list_elem_of_In in Hr.
  pose proof (elem_of_sublist _ _ _ Hr (slice_to_sublist _ _)) as Hr'.
  apply list_elem_of_In, in_ranked_inv in Hr' as (sc & _ & Hle & ->).
  cbn [entry rec_match_score]. split.
  - pose proof (proj2 (round_spec (sc_combined_score sc) 4)) as Hnear.
    cbn zeta in Hnear. apply Qabs_Qle_condition in Hnear as [Hlo _].
    change ((1 # 2) / inject_Z (10 ^ Z.of_nat 4))%Q with (1 # 20000)%Q in Hlo.
    set (x := Py.round (sc_combined_score sc) 4) in *. lra.
  - intros Hfix. rewrite <- Hfix at 1. apply round_mono. exact Hle.
Qed.

(** Asking for fewer entries gives a prefix of what asking for more gives:
    the first [top_n] entries do not depend on how many are asked for, and
    no entry is returned for [top_n = 0]. *)
Theorem generate_recommendations_top_n_prefix :
  forall (w : collaborators) (student_id top_n top_n' : Z) (min_score : Q)
         (c : cache),
    0 <= top_n <= top_n' ->
    match fst (generate w student_id top_n' min_score c) with
    | inr out' =>
        fst (generate w student_id top_n min_score c)
        = inr (take (Z.to_nat top_n) out')
    | inl e => fst (generate w student_id top_n min_score c) = inl e
    end.
Proof.
  intros w student_id top_n top_n' min_score c Hn. rewrite !generate_result.
  destruct (scored_jobs w c student_id) as [e | scs]; [reflexivity |].
  rewrite !slice_to_nonneg by lia. rewrite take_take. f_equal. f_equal. lia.
Qed.

Lemma score_with_embedding_error (w : collaborators)
    (se : list Q) (ss : list string) (sx : Q) (job : job_row)
    (je : option (list Q)) (e : Py.exn) :
  score_with_embedding np_sqrt w se ss sx job je = inl e
  <-> exists v, je = Some v /\ v <> [] /\ length se <> length v
                /\ e = dimension_error.
Proof.
  unfold score_with_embedding, cosine_similarity. split.
  - destruct je as [[|x v]|]; try discriminate.
    destruct (Nat.eqb_spec (length se) (length (x :: v))) as [Hl | Hl]; cbn [negb].
    + destruct (Qeq_bool _ 0 || Qeq_bool _ 0);
        destruct (parsed_job_descriptions w !! job_id job) as [[[pd|]]|];
        discriminate.
    + intros [= <-]. exists (x :: v). repeat split; [discriminate | exact Hl].
  - intros (v & -> & Hv & Hl & ->). destruct v as [|x v]; [congruence |].
    destruct (Nat.eqb_spec (length se) (length (x :: v))) as [Hl' | Hl'];
      [contradiction | reflexivity].
Qed.

Lemma score_all_error (w : collaborators) (c : cache)
    (se : list Q) (ss : list string) (sx : Q) (l : list job_row) (e : Py.exn) :
  score_all np_sqrt sha256_digest md5_hexdigest w c se ss sx l = inl e ->
  e = dimension_error
  /\ exists job v, In job l /\ res_job w c (job_id job) = inr (Some v)
                   /\ v <> [] /\ length se <> length v.
Proof.
  induction l as [|j rest IH]; cbn [score_all]; [discriminate |].
  destruct (res_job w c (job_id j)) as [e' | je] eqn:Hr.
  { rewrite resolve_job_eq in Hr. discriminate. }
  destruct (score_with_embedding np_sqrt w se ss sx j je) as [e' | o] eqn:Ho.
  - intros [= <-]. apply score_with_embedding_error in Ho as (v & -> & Hv & Hl & ->).
    split; [reflexivity |]. exists j, v. split; [left; reflexivity | auto].
  - destruct (score_all _ _ _ w c se ss sx rest) as [e' | scs]; [| discriminate].
    intros [= <-]. destruct (IH eq_refl) as (He & job & v & Hin & Hrest).
    split; [exact He |]. exists job, v. split; [right; exact Hin | exact Hrest].
Qed.

Lemma score_all_mismatch (w : collaborators) (c : cache)
    (se : list Q) (ss : list string) (sx : Q) (l : list job_row)
    (job : job_row) (v : list Q) :
  In job l -> res_job w c (job_id job) = inr (Some v) ->
  v <> [] -> length se <> length v ->
  score_all np_sqrt sha256_digest md5_hexdigest w c se ss sx l
  = inl dimension_error.
Proof.
  intros Hin Hres Hv Hl.
  destruct (score_all _ _ _ w c se ss sx l) as [e | scs] eqn:Hs.
  - apply score_all_error in Hs as [-> _]. reflexivity.
  - destruct (score_all_inv np_sqrt _ _ _ _ _ _ _ _ _ Hs job Hin)
      as (je & o & Hres' & Ho & _).
    rewrite Hres in Hres'. injection Hres' as <-.
    assert (He : score_with_embedding np_sqrt w se ss sx job (Some v)
                 = inl dimension_error).
    { apply score_with_embedding_error. exists v. auto. }
    congruence.
Qed.

(** A vector of another dimension is not truncated or padded: the run
    raises the dimension error exactly when the candidate is scored (it has
    a vector and a parsed resume) and some open job resolves to a non-empty
    vector whose length differs from the candidate's; nothing else makes
    it raise. *)
Theorem generate_recommendations_raises_iff :
  forall (w : collaborators) (student_id top_n : Z) (min_score : Q) (c : cache)
         (e : Py.exn),
    fst (generate w student_id top_n min_score c) = inl e
    <-> e = dimension_error
        /\ exists student_embedding job v,
             res_student w c student_id = inr (Some student_embedding)
             /\ student_embedding <> []
             /\ is_Some (parsed_resumes w !! student_id)
             /\ In job (open_jobs w)
             /\ res_job w c (job_id job) = inr (Some v)
             /\ v <> []
             /\ length student_embedding <> length v.
Proof.
  intros w student_id top_n min_score c e. rewrite generate_result.
  unfold scored_open_jobs. split.
  - destruct (res_student w c student_id) as [e' | [[|x u]|]] eqn:Hs;
      try discriminate.
    { rewrite resolve_student_eq in Hs. discriminate. }
    destruct (parsed_resumes w !! student_id) as [doc|] eqn:Hdoc; [| discriminate].
    destruct (score_all _ _ _ w c (x :: u) _ _ (open_jobs w)) as [e' | scs] eqn:Ha;
      [| discriminate].
    intros [= <-]. apply score_all_error in Ha as (-> & job & v & Hrest).
    split; [reflexivity |]. exists (x :: u), job, v.
    split; [reflexivity |]. split; [discriminate |]. split; [eauto | exact Hrest].
  - intros (-> & se & job & v & Hs & Hse & [doc Hdoc] & Hin & Hres & Hv & Hl).
    rewrite Hs, Hdoc. destruct se as [|x u]; [congruence |].
    rewrite (score_all_mismatch w c (x :: u) _ _ _ job v Hin Hres Hv Hl).
    reflexivity.
Qed.

Lemma get_student_extended (w : collaborators) (id : Z) (c : cache) :
  cache_extended (fun k => k = ("student"%string, id)) c
    (snd (get_student w id false c)).
Proof.
  unfold get_student_embedding, bind, get_embedding, ret, store_embedding.
  destruct (truthy (cd_embedding <$> c !! ("student"%string, id))) eqn:Ht;
    [apply cache_extended_refl |].
  destruct (parsed_resumes w !! id) as [[[pd|]]|];
    try apply cache_extended_refl.
  cbn [snd]. intros k. destruct (decide (k = ("student"%string, id))) as [-> | Hne].
  - right. split; [exact Ht |]. split; [reflexivity |].
    eexists. split; [apply lookup_insert_eq |].
    apply simple_embedding_length.
  - left. apply lookup_insert_ne. congruence.
Qed.

Lemma get_job_extended (w : collaborators) (id : Z) (c : cache) :
  cache_extended (fun k => k = ("job"%string, id)) c
    (snd (get_job w id false c)).
Proof.
  unfold get_job_embedding, bind, get_embedding, ret, store_embedding.
  destruct (truthy (cd_embedding <$> c !! ("job"%string, id))) eqn:Ht;
    [apply cache_extended_refl |].
  destruct (parsed_job_descriptions w !! id) as [[[pd|]]|];
    try apply cache_extended_refl.
  cbn [snd]. intros k. destruct (decide (k = ("job"%string, id))) as [-> | Hne].
  - right. split; [exact Ht |]. split; [reflexivity |].
    eexists. split; [apply lookup_insert_eq |].
    apply simple_embedding_length.
  - left. apply lookup_insert_ne. congruence.
Qed.

Lemma for_each_extended (w : collaborators)
    (se : list Q) (ss : list string) (sx : Q) (min_score : Q)
    (l : list job_row) (acc : list recommendation) (c : cache) :
  cache_extended (fun k => exists j, In j l /\ k = ("job"%string, job_id j)) c
    (snd (for_each
            (loop_body np_sqrt sha256_digest md5_hexdigest w se ss sx min_score)
            l acc c)).
Proof.
  revert acc c. induction l as [|job rest IH]; intros acc c.
  - apply cache_extended_refl.
  - rewrite for_each_cons, loop_body_run.
    pose proof (get_job_extended w (job_id job) c) as H1.
    set (c1 := snd (get_job w (job_id job) false c)) in *.
    assert (H1' : cache_extended
                    (fun k => exists j, In j (job :: rest)
                                        /\ k = ("job"%string, job_id j)) c c1).
    { eapply cache_extended_weaken; [| exact H1].
      intros k ->. exists job. split; [left; reflexivity | reflexivity]. }
    destruct (res_job w c (job_id job)) as [e | je]; [exact H1' |].
    destruct (score_with_embedding np_sqrt w se ss sx job je) as [e | [sc |]];
      [exact H1' | |];
      (eapply cache_extended_trans; [exact H1' |];
       eapply cache_extended_weaken; [| apply IH];
       intros k (j & Hj & ->); exists j; split; [right; exact Hj | reflexivity]).
Qed.

(** The run keeps what the cache holds: no document is removed, and none
    that holds a non-empty vector is replaced.  What it writes are
    256-entry vectors under the key of the candidate or of an open job,
    where no usable vector was cached. *)
Theorem generate_recommendations_cache_frame :
  forall (w : collaborators) (student_id top_n : Z) (min_score : Q) (c : cache),
    let c' := snd (generate w student_id top_n min_score c) in
    forall k,
      c' !! k = c !! k
      \/ (truthy (cd_embedding <$> c !! k) = false
          /\ (k = ("student"%string, student_id)
              \/ exists j, In j (open_jobs w) /\ k = ("job"%string, job_id j))
          /\ exists doc, c' !! k = Some doc
                         /\ length (cd_embedding doc) = 256%nat).
Proof.
  intros w student_id top_n min_score c c'.
  set (allowed := fun k : string * Z =>
                    k = ("student"%string, student_id)
                    \/ exists j, In j (open_jobs w)
                                 /\ k = ("job"%string, job_id j)).
  change (cache_extended allowed c c').
  subst c'. unfold generate_recommendations. rewrite bind_run.
  assert (H1 : cache_extended allowed c (snd (get_student w student_id false c))).
  { eapply cache_extended_weaken; [| apply get_student_extended].
    intros k Hk. left. exact Hk. }
  destruct (get_student w student_id false c) as [[e | [[|x v]|]] c1];
    cbn [snd] in H1 |- *; try exact H1.
  destruct (parsed_resumes w !! student_id) as [doc|]; [| exact H1].
  rewrite bind_run.
  match goal with
  | |- context [for_each ?b ?l ?a c1] =>
      assert (H2 : cache_extended allowed c1 (snd (for_each b l a c1)))
  end.
  { eapply cache_extended_weaken; [| apply for_each_extended].
    intros k Hk. right. exact Hk. }
  destruct (for_each _ _ _ c1) as [[e | recs] c2]; cbn [snd] in H2 |- *;
    eapply cache_extended_trans; eassumption.
Qed.

End GenerateMore.

Lemma generate_recommendations_open_jobs_only_witness :
  exists out,
    fst (generate_recommendations sqrt_on_squares sample_digest sample_hexdigest
           sample_str_float sample_world 1 10 (3 # 10) sample_cache) = inr out
    /\ (length out <= length (open_jobs sample_world))%nat
    /\ NoDup (rec_job_id <$> out).
Proof.
  eexists. split; [vm_compute; reflexivity |].
  match goal with
  | |- (length ?o <= _)%nat /\ _ =>
      destruct (generate_recommendations_open_jobs_only sqrt_on_squares
                  sample_digest sample_hexdigest sample_str_float sample_world
                  1 10 (3 # 10) sample_cache o) as (_ & Hlen & Hnd);
        [vm_compute; reflexivity |]
  end.
  split; [exact Hlen |]. apply Hnd.
  apply (bool_decide_unpack _). vm_compute. exact I.
Defined.

Lemma generate_recommendations_threshold_witness :
  Forall (fun r => (3 # 10 <= rec_match_score r)%Q)
    (match fst (generate_recommendations sqrt_on_squares sample_digest
                  sample_hexdigest sample_str_float sample_world 1 10 (3 # 10)
                  sample_cache) with
     | inr out => out
     | inl _ => []
     end).
Proof.
  apply List.Forall_forall. intros r Hr.
  eapply (generate_recommendations_threshold sqrt_on_squares sample_digest
            sample_hexdigest sample_str_float sample_world 1 10 (3 # 10)
            sample_cache);
    [vm_compute; reflexivity | exact Hr | vm_compute; reflexivity].
Defined.

Lemma generate_recommendations_top_n_prefix_witness :
  match fst (generate_recommendations sqrt_on_squares sample_digest
               sample_hexdigest sample_str_float sample_world 1 2 (3 # 10)
               sample_cache) with
  | inr out' =>
      fst (generate_recommendations sqrt_on_squares sample_digest
             sample_hexdigest sample_str_float sample_world 1 1 (3 # 10)
             sample_cache)
      = inr (take (Z.to_nat 1) out')
  | inl e =>
      fst (generate_recommendations sqrt_on_squares sample_digest
             sample_hexdigest sample_str_float sample_world 1 1 (3 # 10)
             sample_cache) = inl e
  end.
Proof. apply generate_recommendations_top_n_prefix. lia. Defined.

(* ================================================================== *)
(** ** Listing stored recommendations *)
(* ================================================================== *)

Lemma in_joined_recommendations (current_timestamp : Z) (jobs : list job_row)
    (companies : gmap Z string) (student_id : Z) (include_applied : bool)
    (t : ai_recommendations) (x : listed_recommendation) :
  In x (joined_recommendations current_timestamp jobs companies student_id
          include_applied t)
  <-> listable current_timestamp jobs companies student_id include_applied t x.
Proof.
  unfold joined_recommendations, listable. rewrite in_flat_map. split.
  - intros ([[sid jid] r] & Hkv & Hx). cbn [fst snd] in Hx.
    apply list_elem_of_In, elem_of_map_to_list in Hkv.
    destruct (Z.eqb_spec sid student_id) as [-> | Hne]; [| destruct Hx].
    destruct (Z.ltb_spec current_timestamp (row_expires_at r)) as [Hlt | Hge];
      [| destruct Hx].
    destruct (include_applied || negb (row_is_applied r)) eqn:Happ;
      [| destruct Hx].
    cbn [andb] in Hx. apply in_flat_map in Hx as (j & Hj & Hx).
    destruct (Z.eqb_spec (job_id j) jid) as [Hid | Hid]; [| destruct Hx].
    destruct (String.eqb_spec (status j) "open") as [Hopen | Hopen];
      [| destruct Hx].
    cbn [andb] in Hx.
    destruct (companies !! company_id j) as [name|] eqn:Hc; [| destruct Hx].
    destruct Hx as [<- | []]. cbn [lr_job_id].
    exists r, j, name. repeat (split; [assumption |]).
    split; [| split; [exact Hj | split; [exact Hid | auto]]].
    apply orb_true_iff in Happ as [-> | Hn]; [left; reflexivity |].
    right. destruct (row_is_applied r); [discriminate | reflexivity].
  - intros (r & j & name & Ht & Hlt & Happ & Hj & Hid & Hopen & Hc & Hx).
    exists (student_id, lr_job_id x, r). split.
    + apply list_elem_of_In, elem_of_map_to_list. exact Ht.
    + cbn [fst snd]. rewrite Z.eqb_refl.
      destruct (Z.ltb_spec current_timestamp (row_expires_at r)); [| lia].
      assert (Ha : include_applied || negb (row_is_applied r) = true).
      { destruct Happ as [-> | ->]; [reflexivity | apply orb_true_r]. }
      rewrite Ha. cbn [andb]. apply in_flat_map. exists j. split; [exact Hj |].
      rewrite Hid, Z.eqb_refl, Hopen, Hc. cbn. left. symmetry. exact Hx.
Qed.

Lemma in_get_student_recommendations (current_timestamp : Z) (jobs : list job_row)
    (companies : gmap Z string) (student_id : Z) (include_applied : bool)
    (t : ai_recommendations) (x : listed_recommendation) :
  In x (get_student_recommendations current_timestamp jobs companies student_id
          include_applied t)
  <-> listable current_timestamp jobs companies student_id include_applied t x.
Proof.
  unfold get_student_recommendations.
  rewrite <- in_joined_recommendations. split; apply Permutation_in;
    [| symmetry]; apply sort_reverse_perm.
Qed.

(** A row is listed exactly when it belongs to the student, has not
    expired, is not applied (unless applied rows are asked for), and its
    job is open and has a company; the list is in descending order of
    [match_score].  In particular an expired row, a row of a closed job and
    another student's row are never listed. *)
Theorem get_student_recommendations_spec :
  forall (current_timestamp : Z) (jobs : list job_row)
         (companies : gmap Z string) (student_id : Z) (include_applied : bool)
         (t : ai_recommendations),
    let result :=
      get_student_recommendations current_timestamp jobs companies student_id
        include_applied t in
    (forall x,
       In x result
       <-> exists r j company_name,
             t !! (student_id, lr_job_id x) = Some r
             /\ current_timestamp < row_expires_at r
             /\ (include_applied = true \/ row_is_applied r = false)
             /\ In j jobs /\ job_id j = lr_job_id x /\ status j = "open"%string
             /\ companies !! company_id j = Some company_name
             /\ x = listed_row (lr_job_id x) j company_name r)
    /\ StronglySorted (before lr_match_score) result
    /\ (include_applied = false -> forall x, In x result -> lr_is_applied x = false)
    /\ (forall x, In x result ->
          forall r, t !! (student_id, lr_job_id x) = Some r ->
                    current_timestamp < row_expires_at r).
Proof.
  intros current_timestamp jobs companies student_id include_applied t result.
  split; [intros x; apply in_get_student_recommendations |].
  split; [apply sort_reverse_sorted |].
  split.
  - intros -> x Hx. apply in_get_student_recommendations in Hx
      as (r & j & name & _ & _ & [Hf | Ha] & _ & _ & _ & _ & ->);
      [discriminate | exact Ha].
  - intros x Hx r Hr. apply in_get_student_recommendations in Hx
      as (r' & _ & _ & Hr' & Hlt & _). congruence.
Qed.

Section StoreThenList.

Variable dflt : column_defaults.
Variables utcnow store_timestamp student_id : Z.

Local Abbreviation upsert :=
  (fun (t : ai_recommendations) (rec : recommendation) =>
     upsert_recommendation dflt store_timestamp student_id rec
       (_generate_reason rec) (utcnow + timedelta_days 7) t).




End StoreThenList.

(** Mark applied, then list: the job is gone from the list that leaves
    applied rows out, stays in the list that includes them, and nothing
    changes for the other jobs or for other students. *)
Theorem applied_recommendation_is_hidden :
  forall (current_timestamp : Z) (jobs : list job_row)
         (companies : gmap Z string) (student_id job_id0 : Z)
         (t : ai_recommendations),
    let t' := fst (mark_recommendation_applied student_id job_id0 t) in
    let list_of := get_student_recommendations current_timestamp jobs companies in
    (forall x, In x (list_of student_id false t') -> lr_job_id x <> job_id0)
    /\ (forall x, In x (list_of student_id true t) -> lr_job_id x = job_id0 ->
          exists x', In x' (list_of student_id true t')
                     /\ lr_job_id x' = job_id0 /\ lr_is_applied x' = true
                     /\ lr_match_score x' = lr_match_score x)
    /\ (forall include_applied x, lr_job_id x <> job_id0 ->
          (In x (list_of student_id include_applied t')
           <-> In x (list_of student_id include_applied t)))
    /\ (forall other include_applied x, other <> student_id ->
          (In x (list_of other include_applied t')
           <-> In x (list_of other include_applied t))).
Proof.
  intros current_timestamp jobs companies student_id job_id0 t t' list_of.
  subst t' list_of.
  unfold mark_recommendation_applied, update_where. cbn [fst].
  split; [| split; [| split]].
  - intros x Hx Hid. apply in_get_student_recommendations in Hx
      as (r & _ & _ & Hr & _ & [Hf | Ha] & _); [discriminate |].
    rewrite Hid, lookup_alter_eq in Hr.
    destruct (t !! (student_id, job_id0)); [| discriminate].
    injection Hr as <-. discriminate.
  - intros x Hx Hid. apply in_get_student_recommendations in Hx
      as (r & j & name & Hr & Hlt & _ & Hj & Hjid & Hopen & Hc & Hx).
    rewrite Hid in *.
    exists (listed_row job_id0 j name (set_applied r)).
    split; [| rewrite Hx; cbn; auto].
    apply in_get_student_recommendations. exists (set_applied r), j, name.
    cbn [lr_job_id listed_row]. rewrite lookup_alter_eq, Hr. cbn.
    repeat split; try assumption. left. reflexivity.
  - intros include_applied x Hid. rewrite !in_get_student_recommendations.
    unfold listable. rewrite lookup_alter_ne by congruence. reflexivity.
  - intros other include_applied x Hne. rewrite !in_get_student_recommendations.
    unfold listable. rewrite lookup_alter_ne by congruence. reflexivity.
Qed.

(** Applying to a job: an error leaves the applications and the
    recommendations as they were; a success appends one application with
    status "applied", marks the student's recommendation for the job (if
    there is one) as applied and touches no other row; after it a second
    application to the job is refused as already applied, and the job is no
    longer listed among the recommendations that leave applied rows out. *)
Theorem apply_to_job_spec :
  forall (jobs : list job_row) (job_id0 : Z) (cover_letter : option string)
         (student_id : Z) (st : list application * ai_recommendations),
    let out := apply_to_job jobs job_id0 cover_letter student_id st in
    (forall code detail, fst out = HTTPException code detail -> snd out = st)
    /\ (forall e, fst out <> Unhandled e)
    /\ (forall message success,
          fst out = MessageResponse message success ->
          message = "Application submitted successfully"%string
          /\ success = true
          /\ (exists job, In job jobs /\ job_id job = job_id0
                          /\ status job = "open"%string)
          /\ fst (snd out)
             = fst st ++ [{| app_student_id := student_id;
                             app_job_id := job_id0;
                             app_cover_letter := cover_letter;
                             app_status := "applied" |}]
          /\ snd (snd out) !! (student_id, job_id0)
             = set_applied <$> snd st !! (student_id, job_id0)
          /\ (forall k, k <> (student_id, job_id0) ->
                snd (snd out) !! k = snd st !! k)
          /\ (forall cover_letter',
                apply_to_job jobs job_id0 cover_letter' student_id (snd out)
                = (HTTPException 400 "Already applied to this job", snd out))
          /\ (forall current_timestamp companies x,
                In x (get_student_recommendations current_timestamp jobs
                        companies student_id false (snd (snd out))) ->
                lr_job_id x <> job_id0)).
Proof.
  intros jobs job_id0 cover_letter student_id [apps t] out. subst out.
  unfold apply_to_job. cbn [fst snd].
  destruct (List.find (fun j => job_id j =? job_id0) jobs) as [job|] eqn:Hfind;
    [| repeat split; try discriminate; intros; discriminate].
  destruct (String.eqb_spec (status job) "open") as [Hopen | Hopen]; cbn [negb];
    [| repeat split; try discriminate; intros; discriminate].
  destruct (existsb _ apps) eqn:Hex;
    [repeat split; try discriminate; intros; discriminate |].
  cbn [fst snd]. split; [discriminate |]. split; [discriminate |].
  intros message success [= <- <-].
  apply List.find_some in Hfind as Hjob. destruct Hjob as [Hin Hid].
  apply Z.eqb_eq in Hid.
  split; [reflexivity |]. split; [reflexivity |].
  split; [exists job; auto |]. split; [reflexivity |].
  unfold update_where. cbn [fst].
  split; [apply lookup_alter_eq |].
  split; [intros k Hk; apply lookup_alter_ne; congruence |].
  split.
  - intros cover_letter'. cbn [fst snd]. rewrite existsb_app. cbn [existsb app_student_id app_job_id].
    rewrite !Z.eqb_refl. cbn. rewrite orb_true_r. reflexivity.
  - intros current_timestamp companies x Hx Hxid.
    apply in_get_student_recommendations in Hx
      as (r & _ & _ & Hr & _ & [Hf | Ha] & _); [discriminate |].
    rewrite Hxid, lookup_alter_eq in Hr.
    destruct (t !! (student_id, job_id0)); [| discriminate].
    injection Hr as <-. discriminate.
Qed.

Section RouteFacts.

Variable np_sqrt : Q -> Q.
Variable sha256_digest : string -> list Z.
Variable md5_hexdigest : string -> string.
Variable str_float : Q -> string.

(** The generation route: without an uploaded resume it answers 400 and
    changes nothing.  Otherwise the cache is the one the generation left;
    a dimension error is passed on and a run without result is reported,
    both without a write to the recommendations; and a run with results is
    stored in full, the message carrying the number of results. *)
Theorem generate_recommendations_route_spec :
  forall (dflt : column_defaults) (utcnow current_timestamp : Z)
         (students : gmap Z (option string)) (w : collaborators)
         (top_n : Z) (min_score : Q) (student_id : Z)
         (st : cache * ai_recommendations),
    let run :=
      generate_recommendations np_sqrt sha256_digest md5_hexdigest str_float
        w student_id top_n min_score (fst st) in
    let out :=
      generate_recommendations_route np_sqrt sha256_digest md5_hexdigest
        str_float dflt utcnow current_timestamp students w top_n min_score
        student_id st in
    (students !! student_id = None
     \/ students !! student_id = Some None
     \/ students !! student_id = Some (Some ""%string) ->
     out = (HTTPException 400 "Upload resume first to get recommendations", st))
    /\ (forall ch s, students !! student_id = Some (Some (String ch s)) ->
          fst (snd out) = snd run
          /\ match fst run with
             | inl e => fst out = Unhandled e /\ snd (snd out) = snd st
             | inr recs =>
                 (recs = [] ->
                  fst out
                  = MessageResponse
                      "No matching jobs found. Try lowering minimum score." true
                  /\ snd (snd out) = snd st)
                 /\ (recs <> [] ->
                     fst out
                     = MessageResponse
                         ("Generated " ++ Py.str_int (Z.of_nat (length recs))
                          ++ " job recommendations") true
                     /\ snd (snd out)
                        = fst (store_recommendations dflt utcnow
                                 current_timestamp student_id recs (snd st)))
             end).
Proof.
  intros dflt utcnow current_timestamp students w top_n min_score student_id
    [c t] run out. subst run out. unfold generate_recommendations_route.
  cbn [fst snd]. split.
  - intros [-> | [-> | ->]]; reflexivity.
  - intros ch s ->.
    destruct (generate_recommendations _ _ _ _ w student_id top_n min_score c)
      as [[e | [|r recs]] c']; cbn [fst snd].
    + auto.
    + split; [reflexivity |]. split; [auto | congruence].
    + rewrite store_recommendations_fold. cbn [fst snd].
      split; [reflexivity |]. split; [discriminate | auto].
Qed.

End RouteFacts.


(* ================================================================== *)
(** ** From generation to the list *)
(* ================================================================== *)

Lemma mark_viewed_route_table (job_id0 student_id : Z) (t : ai_recommendations) :
  snd (mark_viewed_route job_id0 student_id t)
  = alter set_viewed (student_id, job_id0) t.
Proof.
  unfold mark_viewed_route, mark_recommendation_viewed, update_where.
  destruct (t !! (student_id, job_id0)); reflexivity.
Qed.

(** The route that marks a recommendation viewed answers 404 exactly when
    the student has no recommendation for the job, and then changes
    nothing; otherwise it sets the flag.  Either way the same jobs are
    listed afterwards, with the same scores. *)
Theorem mark_viewed_route_spec :
  forall (job_id0 student_id : Z) (t : ai_recommendations),
    let out := mark_viewed_route job_id0 student_id t in
    (t !! (student_id, job_id0) = None ->
     out = (HTTPException 404 "Recommendation not found", t))
    /\ (forall r, t !! (student_id, job_id0) = Some r ->
          fst out = MessageResponse "Marked as viewed" true
          /\ snd out = <[(student_id, job_id0) := set_viewed r]> t)
    /\ (forall current_timestamp jobs companies other include_applied x,
          In x (get_student_recommendations current_timestamp jobs companies
                  other include_applied t) ->
          exists x',
            In x' (get_student_recommendations current_timestamp jobs companies
                     other include_applied (snd out))
            /\ lr_job_id x' = lr_job_id x
            /\ lr_match_score x' = lr_match_score x
            /\ lr_is_applied x' = lr_is_applied x
            /\ lr_is_viewed x'
               = (if decide ((other, lr_job_id x) = (student_id, job_id0))
                  then true else lr_is_viewed x)).
Proof.
  intros job_id0 student_id t out. subst out.
  split; [| split].
  - intros Hn. unfold mark_viewed_route, mark_recommendation_viewed, update_where.
    rewrite Hn. cbn. f_equal. apply map_eq. intros k.
    destruct (decide (k = (student_id, job_id0))) as [-> | Hne];
      [rewrite lookup_alter_eq, Hn | rewrite lookup_alter_ne by congruence];
      reflexivity.
  - intros r Hr. rewrite mark_viewed_route_table.
    unfold mark_viewed_route, mark_recommendation_viewed, update_where.
    rewrite Hr. cbn. split; [reflexivity |].
    apply map_eq. intros k.
    destruct (decide (k = (student_id, job_id0))) as [-> | Hne].
    + rewrite lookup_alter_eq, lookup_insert_eq, Hr. reflexivity.
    + rewrite lookup_alter_ne, lookup_insert_ne by congruence. reflexivity.
  - intros current_timestamp jobs companies other include_applied x Hx.
    apply in_get_student_recommendations in Hx
      as (r & j & name & Hr & Hlt & Happ & Hj & Hid & Hopen & Hc & Hx).
    rewrite mark_viewed_route_table.
    destruct (decide ((other, lr_job_id x) = (student_id, job_id0))) as [Hk | Hk].
    + exists (listed_row (lr_job_id x) j name (set_viewed r)).
      split; [| rewrite Hx; cbn; auto].
      apply in_get_student_recommendations. exists (set_viewed r), j, name.
      cbn [lr_job_id listed_row]. rewrite <- Hk, lookup_alter_eq, Hr. cbn.
      repeat split; assumption.
    + exists x. split; [| rewrite Hx; cbn; auto].
      apply in_get_student_recommendations. exists r, j, name.
      rewrite lookup_alter_ne by congruence. repeat split; assumption.
Qed.


Section EndToEnd.

Variable np_sqrt : Q -> Q.
Variable sha256_digest : string -> list Z.
Variable md5_hexdigest : string -> string.
Variable str_float : Q -> string.


End EndToEnd.

